(** * Movi agent: consequence checking, confirmation gate and session store

    A shallow embedding of the orchestration core of the Movi transport
    assistant (backend/agent.py, backend/db_utils.py, backend/main.py) and
    the properties its specification states about it.

    Conventions of the embedding.
    - Python [str] values are [string]s holding the text in UTF-8.  The
      methods [str.lower] and [str.strip] follow the Unicode tables; the
      nodes take them as given, so what is proved of the nodes holds for
      Python's own.  [PyStr] gives the two methods, and [str.upper], on
      ASCII text, where they are determined by the byte values; results
      that rest on [PyStr] are stated for ASCII text.
    - A [Float] column is a rational ([Q]); only its comparison with zero is
      ever used by the code.
    - A [dict] keyed by strings is a [gmap string _]; the argument mapping of
      a tool call holds textual values, as the parameters of the tools that
      the consequence check inspects ([trip_name], [route_name]) are [str].
    - The database engine is taken to answer every query and commit: the
      [except] branches of db_utils, which only an engine failure reaches,
      have no counterpart here.
    - The graph runtime merges what a node returns into the state: messages
      are appended to the transcript, every other returned key overwrites the
      stored one, and a node that returns the state it was given changes
      nothing. Each node below is the function from the state before to the
      state after that merge. *)

From Stdlib Require Import ZArith QArith List String Ascii Bool Lia DecimalString.
From stdpp Require Import gmap strings list fin_maps.
Import ListNotations.

Local Open Scope string_scope.
Local Open Scope list_scope.

(** ** Python string helpers *)

Module PyStr.

Definition is_upper (c : ascii) : bool :=
  let n := nat_of_ascii c in (65 <=? n)%nat && (n <=? 90)%nat.

Definition lower_char (c : ascii) : ascii :=
  if is_upper c then ascii_of_nat (nat_of_ascii c + 32) else c.

(** [str.lower()] on ASCII text *)
Fixpoint lower (s : string) : string :=
  match s with
  | EmptyString => EmptyString
  | String c s' => String (lower_char c) (lower s')
  end.

(** [str.isspace()] on one ASCII character: TAB, LF, VT, FF, CR, FS, GS,
    RS, US and the space. *)
Definition isspace (c : ascii) : bool :=
  let n := nat_of_ascii c in
  ((9 <=? n)%nat && (n <=? 13)%nat) || ((28 <=? n)%nat && (n <=? 32)%nat).

Fixpoint lstrip (s : string) : string :=
  match s with
  | EmptyString => EmptyString
  | String c s' => if isspace c then lstrip s' else s
  end.

Definition reverse (s : string) : string :=
  string_of_list_ascii (List.rev (list_ascii_of_string s)).

Definition rstrip (s : string) : string := reverse (lstrip (reverse s)).

(** [str.strip()] on ASCII text *)
Definition strip (s : string) : string := rstrip (lstrip s).

(** [str.startswith] *)
Definition startswith (p s : string) : bool := String.prefix p s.

(** [str(n)] of a non-negative integer *)
Definition str_nat (n : nat) : string :=
  NilEmpty.string_of_uint (Nat.to_uint n).

Definition is_lower (c : ascii) : bool :=
  let n := nat_of_ascii c in (97 <=? n)%nat && (n <=? 122)%nat.

Definition upper_char (c : ascii) : ascii :=
  if is_lower c then ascii_of_nat (nat_of_ascii c - 32) else c.

(** [str.upper()] on ASCII text *)
Fixpoint upper (s : string) : string :=
  match s with
  | EmptyString => EmptyString
  | String c s' => String (upper_char c) (upper s')
  end.

(** [s.split(sep)] for a separator of one character *)
Fixpoint split (sep : ascii) (s : string) : list string :=
  match s with
  | EmptyString => [EmptyString]
  | String c s' =>
      if Ascii.eqb c sep then EmptyString :: split sep s'
      else match split sep s' with
           | segment :: rest => String c segment :: rest
           | [] => [String c EmptyString]
           end
  end.

(** [sep.join(parts)] *)
Fixpoint join (sep : string) (parts : list string) : string :=
  match parts with
  | [] => EmptyString
  | x :: rest =>
      match rest with
      | [] => x
      | _ :: _ => x +:+ sep +:+ join sep rest
      end
  end.

(** [list(s)]: the characters of [s], each a string *)
Definition chars (s : string) : list string :=
  List.map (fun c => String c EmptyString) (list_ascii_of_string s).

(** [c in s] for a character [c] *)
Definition contains (c : ascii) (s : string) : bool :=
  List.existsb (Ascii.eqb c) (list_ascii_of_string s).

(** Every character of [s] is white space ([s.isspace()], or [s] empty). *)
Definition blank (s : string) : bool :=
  List.forallb isspace (list_ascii_of_string s).

(** [s.isascii()]: every character of [s] is below U+0080, so that [s]
    has one byte for each character. *)
Definition is_ascii (s : string) : bool :=
  List.forallb (fun c => (nat_of_ascii c <? 128)%nat) (list_ascii_of_string s).

(** [str(z)] of an integer *)
Definition str_int (z : Z) : string :=
  if (z <? 0)%Z then "-" +:+ str_nat (Z.to_nat (- z))
  else str_nat (Z.to_nat z).

End PyStr.

(** ** The relational data (backend/database.py) *)

Record Route := {
  route_id : Z;
  path_id : Z;
  route_display_name : string;
  shift_time : string;
  direction : string;
  start_point : string;
  end_point : string;
  status : string
}.

Record Vehicle := {
  vehicle_id : Z;
  license_plate : string;
  vehicle_type : string;
  capacity : Z
}.

Record DailyTrip := {
  trip_id : Z;
  trip_route_id : Z;
  display_name : string;
  booking_status_percentage : Q;
  live_status : string
}.

Record Deployment := {
  deployment_id : Z;
  dep_trip_id : Z;
  dep_vehicle_id : option Z;
  dep_driver_id : option Z
}.

(** The tables the embedded operations read or write, rows in table order. *)
Record Database := {
  routes : list Route;
  vehicles : list Vehicle;
  daily_trips : list DailyTrip;
  deployments : list Deployment
}.

(** ** Queries and updates (backend/db_utils.py) *)

Module db_utils.

(** [session.query(T).filter_by(col=v).first()] *)
Definition first_by {T A : Type} `{EqDecision A}
    (col : T -> A) (v : A) (rows : list T) : option T :=
  List.find (fun r => bool_decide (col r = v)) rows.

(** [session.query(T).filter_by(col=v).all()] *)
Definition all_by {T A : Type} `{EqDecision A}
    (col : T -> A) (v : A) (rows : list T) : list T :=
  List.filter (fun r => bool_decide (col r = v)) rows.

(** [x > 0] on a stored percentage *)
Definition positive (p : Q) : bool := negb (Qle_bool p 0).

(** The dict [{"has_bookings": _, "percentage": _}] *)
Record BookingStatus := { has_bookings : bool; percentage : Q }.

(** The dict [{"has_trips": _, "count": _}] *)
Record TripInfo := { has_trips : bool; count : nat }.

Definition check_trip_has_bookings (d : Database) (trip_name : string)
    : BookingStatus :=
  match first_by display_name trip_name (daily_trips d) with
  | None => {| has_bookings := false; percentage := 0 |}
  | Some trip =>
      {| has_bookings := positive (booking_status_percentage trip);
         percentage := booking_status_percentage trip |}
  end.

Definition check_route_has_active_trips (d : Database) (route_name : string)
    : TripInfo :=
  match first_by route_display_name route_name (routes d) with
  | None => {| has_trips := false; count := 0 |}
  | Some route =>
      let trips := all_by trip_route_id (route_id route) (daily_trips d) in
      {| has_trips := (0 <? length trips)%nat; count := length trips |}
  end.

Definition set_status (st : string) (r : Route) : Route :=
  {| route_id := route_id r; path_id := path_id r;
     route_display_name := route_display_name r;
     shift_time := shift_time r; direction := direction r;
     start_point := start_point r; end_point := end_point r;
     status := st |}.

(** [route.status = 'deactivated'] on the row that
    [filter_by(route_display_name=route_name).first()] returned: the first
    row of the table with that name. *)
Fixpoint deactivate_first (route_name : string) (rs : list Route)
    : list Route :=
  match rs with
  | [] => []
  | r :: rs' =>
      if bool_decide (route_display_name r = route_name)
      then set_status "deactivated" r :: rs'
      else r :: deactivate_first route_name rs'
  end.

Definition with_routes (d : Database) (rs : list Route) : Database :=
  {| routes := rs; vehicles := vehicles d;
     daily_trips := daily_trips d; deployments := deployments d |}.

Definition deactivate_route (d : Database) (route_name : string)
    : string * Database :=
  match first_by route_display_name route_name (routes d) with
  | None => ("❌ Route '" +:+ route_name +:+ "' not found.", d)
  | Some route =>
      if bool_decide (status route = "deactivated")
      then ("Route '" +:+ route_name +:+ "' is already deactivated.", d)
      else ("✅ Route '" +:+ route_name +:+ "' has been deactivated",
            with_routes d (deactivate_first route_name (routes d)))
  end.

Definition clear_vehicle (dp : Deployment) : Deployment :=
  {| deployment_id := deployment_id dp; dep_trip_id := dep_trip_id dp;
     dep_vehicle_id := None; dep_driver_id := dep_driver_id dp |}.

(** [deployment.vehicle_id = None] on the first deployment row of the trip *)
Fixpoint clear_first_vehicle (tid : Z) (ds : list Deployment)
    : list Deployment :=
  match ds with
  | [] => []
  | dp :: ds' =>
      if bool_decide (dep_trip_id dp = tid)
      then clear_vehicle dp :: ds'
      else dp :: clear_first_vehicle tid ds'
  end.

Definition with_deployments (d : Database) (ds : list Deployment)
    : Database :=
  {| routes := routes d; vehicles := vehicles d;
     daily_trips := daily_trips d; deployments := ds |}.

(** [deployment.vehicle_id] when it is truthy: neither [None] nor [0] *)
Definition assigned_vehicle (dp : option Deployment) : option Z :=
  match dp with
  | Some row =>
      match dep_vehicle_id row with
      | Some v => if bool_decide (v = 0%Z) then None else Some v
      | None => None
      end
  | None => None
  end.

Definition delete_vehicle_from_trip (d : Database) (trip_name : string)
    : string * Database :=
  match first_by display_name trip_name (daily_trips d) with
  | None => ("❌ Trip '" +:+ trip_name +:+ "' not found.", d)
  | Some trip =>
      let deployment := first_by dep_trip_id (trip_id trip) (deployments d) in
      match assigned_vehicle deployment with
      | None => ("No vehicle assigned to trip '" +:+ trip_name +:+ "'.", d)
      | Some v =>
          let vehicle_name :=
            match first_by vehicle_id v (vehicles d) with
            | Some vehicle => license_plate vehicle
            | None => "Unknown"
            end in
          ("✅ Removed vehicle " +:+ vehicle_name +:+ " from trip '"
             +:+ trip_name +:+ "'",
           with_deployments d
             (clear_first_vehicle (trip_id trip) (deployments d)))
      end
  end.

(** [[d.vehicle_id for d in session.query(Deployment).all() if d.vehicle_id]] *)
Definition assigned_ids (d : Database) : list Z :=
  List.flat_map
    (fun dp =>
       match assigned_vehicle (Some dp) with
       | Some v => [v]
       | None => []
       end)
    (deployments d).

(** [[v for v in all_vehicles if v.vehicle_id not in assigned_ids]] *)
Definition unassigned_vehicles (d : Database) : list Vehicle :=
  List.filter
    (fun v => negb (bool_decide (vehicle_id v ∈ assigned_ids d)))
    (vehicles d).

Definition query_unassigned_vehicles (d : Database) : string :=
  let unassigned := unassigned_vehicles d in
  match unassigned with
  | [] => "All vehicles are currently assigned."
  | _ :: _ =>
      let vehicle_list :=
        PyStr.join ", "
          (List.map
             (fun v => license_plate v +:+ " (" +:+ vehicle_type v +:+ ")")
             unassigned) in
      "Unassigned vehicles (" +:+ PyStr.str_nat (length unassigned) +:+ "): "
        +:+ vehicle_list
  end.

Definition with_trips (d : Database) (ts : list DailyTrip)
    (ds : list Deployment) : Database :=
  {| routes := routes d; vehicles := vehicles d;
     daily_trips := ts; deployments := ds |}.

(** [0 <= booking_percentage <= 100] *)
Definition valid_percentage (p : Q) : bool :=
  Qle_bool 0 p && Qle_bool p 100.

(** [new_trip_id] and [new_deployment_id] are the keys the engine assigns to
    the two rows that are added; the rows go to the end of their tables. *)
Definition create_daily_trip (new_trip_id new_deployment_id : Z)
    (d : Database) (route_name trip_display_name : string)
    (booking_percentage : Q) (trip_live_status : string)
    : string * Database :=
  match first_by route_display_name route_name (routes d) with
  | None => ("❌ Route '" +:+ route_name +:+ "' not found.", d)
  | Some route =>
      match first_by display_name trip_display_name (daily_trips d) with
      | Some existing =>
          ("❌ Trip '" +:+ trip_display_name +:+ "' already exists.", d)
      | None =>
          if negb (valid_percentage booking_percentage)
          then ("❌ Booking percentage must be between 0 and 100.", d)
          else
            let new_trip :=
              {| trip_id := new_trip_id;
                 trip_route_id := route_id route;
                 display_name := trip_display_name;
                 booking_status_percentage := booking_percentage;
                 live_status := trip_live_status |} in
            let new_deployment :=
              {| deployment_id := new_deployment_id;
                 dep_trip_id := new_trip_id;
                 dep_vehicle_id := None;
                 dep_driver_id := None |} in
            ("✅ Created daily trip '" +:+ trip_display_name +:+ "' (ID: "
               +:+ PyStr.str_int new_trip_id +:+ ") for route '"
               +:+ route_name +:+ "'",
             with_trips d (daily_trips d ++ [new_trip])
               (deployments d ++ [new_deployment]))
      end
  end.

(** The table without the row that
    [filter_by(display_name=trip_name).first()] returned *)
Fixpoint remove_first_trip (trip_name : string) (ts : list DailyTrip)
    : list DailyTrip :=
  match ts with
  | [] => []
  | t :: ts' =>
      if bool_decide (display_name t = trip_name) then ts'
      else t :: remove_first_trip trip_name ts'
  end.

(** [session.delete(deployment)] removes the first deployment row of the
    trip; [session.delete(trip)] removes the trip and with it, by the
    [cascade="all, delete-orphan"] that database.py puts on
    [DailyTrip.deployments], every deployment row that references it. *)
Definition delete_daily_trip (str_float : Q -> string) (d : Database)
    (trip_name : string) : string * Database :=
  match first_by display_name trip_name (daily_trips d) with
  | None => ("❌ Trip '" +:+ trip_name +:+ "' not found.", d)
  | Some trip =>
      let deployment := first_by dep_trip_id (trip_id trip) (deployments d) in
      let has_vehicle :=
        match deployment with
        | Some dp => bool_decide (dep_vehicle_id dp <> None)
        | None => false
        end in
      let has_driver :=
        match deployment with
        | Some dp => bool_decide (dep_driver_id dp <> None)
        | None => false
        end in
      let booking_percentage := booking_status_percentage trip in
      let assignment_info :=
        if has_vehicle || has_driver
        then " (freed up assigned vehicle/driver)" else "" in
      let booking_info :=
        if positive booking_percentage
        then " [had " +:+ str_float booking_percentage +:+ "% bookings]"
        else "" in
      ("✅ Deleted daily trip '" +:+ trip_name +:+ "' (ID: "
         +:+ PyStr.str_int (trip_id trip) +:+ ")"
         +:+ assignment_info +:+ booking_info,
       with_trips d (remove_first_trip trip_name (daily_trips d))
         (List.filter
            (fun dp => negb (bool_decide (dep_trip_id dp = trip_id trip)))
            (deployments d)))
  end.

End db_utils.

(** ** Conversation data (backend/agent.py) *)

(** One entry of [AIMessage.tool_calls]: the dict with keys [name], [args]
    and [id]. *)
Record ToolCall := {
  tc_name : string;
  tc_args : gmap string string;
  tc_id : string
}.

Inductive Message :=
| HumanMessage (content : string)
| AIMessage (content : string) (tool_calls : list ToolCall)
| SystemMessage (content : string)
| ToolMessage (content : string) (tool_call_id : string).

(** The dict stored under [consequence_info]; the constructor is its
    ["type"] entry. *)
Inductive ConsequenceInfo :=
| vehicle_removal (trip_name : string) (booking_percentage : Q)
| trip_deletion (trip_name : string) (booking_percentage : Q)
| route_deactivation (route_name : string) (active_trips : nat).

Record AgentState := {
  messages : list Message;
  currentPage : string;
  confirmation_pending : bool;
  action_to_confirm : option ToolCall;
  consequence_info : option ConsequenceInfo;
  image_data : option string
}.

(** What [tool.invoke(args)] comes to: a result, or an exception with its
    text. *)
Inductive Outcome :=
| Returned (result : string)
| Raised (e : string).

(** What [llm_with_tools.invoke] comes to: a reply with the tool calls it
    proposes, or an exception. *)
Inductive LlmOutcome :=
| LlmReply (content : string) (tool_calls : list ToolCall)
| LlmError.

(** What a turn asks of the data layer, in order: a read-only lookup of
    the consequence check, or the invocation of a registered tool, whose
    body is the data operation, with its arguments. *)
Inductive Event :=
| Query (function : string) (subject : string)
| Invoke (tool_name : string) (tool_args : gmap string string).

Record World := {
  db : Database;
  trace : list Event
}.

(** Computations that read or change the data layer. *)
Definition M (A : Type) : Type := World -> A * World.

Definition ret {A : Type} (a : A) : M A := fun w => (a, w).

Definition bind {A B : Type} (m : M A) (k : A -> M B) : M B :=
  fun w => let (a, w') := m w in k a w'.

Declare Scope agent_scope.
Delimit Scope agent_scope with agent.
Notation "'let*' x ':=' m 'in' k" := (bind m (fun x => k))
  (at level 10, x name, m at level 100, k at level 200,
   only parsing) : agent_scope.

Definition record (e : Event) (w : World) : World :=
  {| db := db w; trace := trace w ++ [e] |}.

(** [for x in xs: ...] collecting one result per element *)
Fixpoint for_each {A B : Type} (f : A -> M B) (xs : list A) : M (list B) :=
  match xs with
  | [] => ret []
  | x :: xs' =>
      (let* y := f x in let* ys := for_each f xs' in ret (y :: ys))%agent
  end.

Definition nl : string := String (ascii_of_nat 10) EmptyString.

(** [get_all_tools()]: the names of the sixteen registered tools *)
Definition get_all_tools : list string :=
  [ "get_trip_status"; "get_unassigned_vehicles"; "list_stops_for_path";
    "list_routes_for_path"; "create_daily_trip"; "assign_vehicle_and_driver";
    "delete_daily_trip"; "remove_vehicle_from_trip"; "create_new_stop";
    "create_new_path"; "create_new_route"; "deactivate_route";
    "list_all_routes"; "get_all_drivers"; "get_trip_bookings";
    "get_vehicle_details" ].

(** [tool_name in tool_map] *)
Definition in_tool_map (tool_name : string) : bool :=
  bool_decide (tool_name ∈ get_all_tools).

(** The names the graph routes on. *)
Inductive Node := call_model_node | check_consequences_node | tools_node
                | handle_confirmation_node | end_node.

Definition last_message (s : AgentState) : option Message :=
  List.last (List.map Some (messages s)) None.

(** [last_message.tool_calls] when the attribute exists, else nothing *)
Definition tool_calls_of (m : Message) : list ToolCall :=
  match m with
  | AIMessage _ tcs => tcs
  | _ => []
  end.

Definition add_messages (new : list Message) (s : AgentState) : AgentState :=
  {| messages := messages s ++ new;
     currentPage := currentPage s;
     confirmation_pending := confirmation_pending s;
     action_to_confirm := action_to_confirm s;
     consequence_info := consequence_info s;
     image_data := image_data s |}.

Definition set_confirmation_pending (b : bool) (s : AgentState) : AgentState :=
  {| messages := messages s;
     currentPage := currentPage s;
     confirmation_pending := b;
     action_to_confirm := action_to_confirm s;
     consequence_info := consequence_info s;
     image_data := image_data s |}.

(** ** Formatting for speech (backend/agent.py) *)

(** [speakable_identifier] on an ASCII identifier, such as a licence
    plate: its [split], [strip] and [upper] are those of [PyStr]. *)
Definition speakable_identifier (identifier : string) : string :=
  if bool_decide (identifier = "") then ""
  else
    let parts :=
      List.flat_map
        (fun segment =>
           let cleaned := PyStr.strip segment in
           if bool_decide (cleaned = "") then []
           else [PyStr.join " " (PyStr.chars (PyStr.upper cleaned))])
        (PyStr.split "-" identifier) in
    PyStr.join " dash " parts.

(** ** The nodes of the graph (backend/agent.py) *)

Section Agent.

(** What the nodes call into and is taken as given: whether an API key is
    configured, the language model and its vision variant, the bodies of
    the registered tools (backend/tools.py, one db_utils operation each,
    behind the argument validation of [invoke]), Python's rendering of a
    float, [format_trip_status], whose regular expression is not
    embedded, and the Unicode-aware methods [str.lower] and [str.strip].
    Every result below holds whatever they do. *)
Variable USE_LLM_MODE : bool.
Variable llm : string -> list Message -> LlmOutcome.
Variable process_image_with_vision : string -> string -> string -> string.
Variable tool_body :
  string -> gmap string string -> Database -> Outcome * Database.
Variable str_float : Q -> string.
Variable format_trip_status : string -> string.
Variable str_lower : string -> string.
Variable str_strip : string -> string.

Local Open Scope agent_scope.

(** [db_utils.check_trip_has_bookings(trip_name)], a read *)
Definition check_trip_has_bookings (trip_name : string)
    : M db_utils.BookingStatus :=
  fun w => (db_utils.check_trip_has_bookings (db w) trip_name,
            record (Query "check_trip_has_bookings" trip_name) w).

(** [db_utils.check_route_has_active_trips(route_name)], a read *)
Definition check_route_has_active_trips (route_name : string)
    : M db_utils.TripInfo :=
  fun w => (db_utils.check_route_has_active_trips (db w) route_name,
            record (Query "check_route_has_active_trips" route_name) w).

(** [tool_map[tool_name].invoke(tool_args)] *)
Definition invoke (tool_name : string) (tool_args : gmap string string)
    : M Outcome :=
  fun w =>
    let (r, d) := tool_body tool_name tool_args (db w) in
    (r, {| db := d; trace := trace w ++ [Invoke tool_name tool_args] |}).

Definition format_tool_output (tool_name : string) (raw_result : string)
    : string :=
  let text := str_strip raw_result in
  if PyStr.startswith "error" (str_lower text) then text
  else if bool_decide (tool_name = "get_trip_status")
  then format_trip_status text
  else text.

(** *** Node 1: call_model *)

(** The content of the most recent [HumanMessage], [""] without one *)
Fixpoint last_user_content (reversed : list Message) : string :=
  match reversed with
  | [] => ""
  | HumanMessage c :: _ => c
  | _ :: rest => last_user_content rest
  end.

Definition llm_fallback : string :=
  "I ran into an issue reaching my language model, but I'm still here. "
  +:+ "Please try again in a moment.".

Definition demo_fallback (current_page : string) : string :=
  "I'm Movi on the " +:+ current_page
  +:+ " page. Please configure OPENAI_API_KEY for full functionality.".

(** When an attachment is present the node appends its analysis to the
    transcript in place, and returns the reply of the model; the state
    after it has both.  The attachment itself stays in the state: the node
    clears [image_data] on its own copy of the state only and does not
    return that key. *)
Definition call_model (s : AgentState) : AgentState :=
  let current_page := currentPage s in
  let msgs :=
    match image_data s with
    | Some img =>
        if bool_decide (img = "") then messages s
        else
          let vision_context :=
            process_image_with_vision img
              (last_user_content (List.rev (messages s))) current_page in
          if bool_decide (vision_context = "") then messages s
          else messages s ++
               [SystemMessage ("📷 Image Analysis:" +:+ nl +:+ vision_context)]
    | None => messages s
    end in
  let response :=
    if USE_LLM_MODE then
      match llm current_page msgs with
      | LlmReply c tcs => AIMessage c tcs
      | LlmError => AIMessage llm_fallback []
      end
    else AIMessage (demo_fallback current_page) [] in
  {| messages := msgs ++ [response];
     currentPage := currentPage s;
     confirmation_pending := confirmation_pending s;
     action_to_confirm := action_to_confirm s;
     consequence_info := consequence_info s;
     image_data := image_data s |}.

(** *** Node 2: call_tool *)

(** The body of the loop over [last_message.tool_calls] *)
Definition execute_tool_call (tool_call : ToolCall) : M Message :=
  let tool_name := tc_name tool_call in
  let tool_args := tc_args tool_call in
  let tool_id := tc_id tool_call in
  if in_tool_map tool_name then
    let* r := invoke tool_name tool_args in
    match r with
    | Returned result =>
        ret (ToolMessage (format_tool_output tool_name result) tool_id)
    | Raised e => ret (ToolMessage ("Error: " +:+ e) tool_id)
    end
  else
    ret (ToolMessage ("Error: Tool '" +:+ tool_name +:+ "' not found") tool_id).

Definition call_tool (s : AgentState) : M AgentState :=
  match last_message s with
  | None => ret s
  | Some last =>
      match tool_calls_of last with
      | [] => ret s
      | tcs =>
          let* tool_messages := for_each execute_tool_call tcs in
          ret (add_messages tool_messages s)
      end
  end.

(** *** Node 3: check_consequences *)

Definition ask_to_proceed : string :=
  "This is a high-impact operation." +:+ nl +:+ nl
  +:+ "❓ Do you want to proceed? (Reply 'yes' to confirm or 'no' to cancel)".

Definition vehicle_removal_warning (trip_name : string) (pct : Q) : string :=
  "⚠️ CONSEQUENCE WARNING" +:+ nl +:+ nl
  +:+ "I can remove the vehicle from '" +:+ trip_name
  +:+ "'. However, please be aware that:" +:+ nl +:+ nl
  +:+ "• This trip is currently " +:+ str_float pct
  +:+ "% booked by employees" +:+ nl
  +:+ "• Removing the vehicle will cancel these bookings" +:+ nl
  +:+ "• Trip-sheet generation will fail" +:+ nl
  +:+ "• Affected employees will need to be notified" +:+ nl +:+ nl
  +:+ ask_to_proceed.

Definition trip_deletion_warning (trip_name : string) (pct : Q) : string :=
  "⚠️ CONSEQUENCE WARNING" +:+ nl +:+ nl
  +:+ "I can delete the trip '" +:+ trip_name
  +:+ "'. However, please be aware that:" +:+ nl +:+ nl
  +:+ "• This trip is currently " +:+ str_float pct
  +:+ "% booked by employees" +:+ nl
  +:+ "• Deleting this trip will permanently remove all bookings" +:+ nl
  +:+ "• Assigned vehicle and driver will be freed up" +:+ nl
  +:+ "• Affected employees will need to be notified and rescheduled" +:+ nl
  +:+ "• This action cannot be undone" +:+ nl +:+ nl
  +:+ ask_to_proceed.

Definition route_deactivation_warning (route_name : string) (n : nat)
    : string :=
  "⚠️ CONSEQUENCE WARNING" +:+ nl +:+ nl
  +:+ "I can deactivate route '" +:+ route_name
  +:+ "'. However, please be aware that:" +:+ nl +:+ nl
  +:+ "• This route currently has " +:+ PyStr.str_nat n
  +:+ " active trip(s)" +:+ nl
  +:+ "• Deactivating will affect these trips" +:+ nl
  +:+ "• New bookings will be disabled" +:+ nl
  +:+ "• Existing schedules may need adjustment" +:+ nl +:+ nl
  +:+ ask_to_proceed.

Definition pause_message (tool_call : ToolCall) : Message :=
  ToolMessage "⏸️ Action paused pending confirmation. No changes made yet."
    (tc_id tool_call).

(** The state a risky branch returns: the flag, the saved call, the
    consequence details and the two messages. *)
Definition pause_for_confirmation (tool_call : ToolCall)
    (info : ConsequenceInfo) (warning_msg : string) (s : AgentState)
    : AgentState :=
  {| messages := messages s ++ [pause_message tool_call; AIMessage warning_msg []];
     currentPage := currentPage s;
     confirmation_pending := true;
     action_to_confirm := Some tool_call;
     consequence_info := Some info;
     image_data := image_data s |}.

Definition check_consequences (s : AgentState) : M AgentState :=
  match last_message s with
  | None => ret (set_confirmation_pending false s)
  | Some last =>
      match tool_calls_of last with
      | [] => ret (set_confirmation_pending false s)
      | last_tool_call :: _ =>
          let tool_name := tc_name last_tool_call in
          let tool_args := tc_args last_tool_call in
          if bool_decide (tool_name = "remove_vehicle_from_trip") then
            let trip_name := default "" (tool_args !! "trip_name") in
            let* status := check_trip_has_bookings trip_name in
            if db_utils.has_bookings status then
              ret (pause_for_confirmation last_tool_call
                     (vehicle_removal trip_name (db_utils.percentage status))
                     (vehicle_removal_warning trip_name
                        (db_utils.percentage status)) s)
            else ret (set_confirmation_pending false s)
          else if bool_decide (tool_name = "delete_daily_trip") then
            let trip_name := default "" (tool_args !! "trip_name") in
            let* status := check_trip_has_bookings trip_name in
            if db_utils.has_bookings status then
              ret (pause_for_confirmation last_tool_call
                     (trip_deletion trip_name (db_utils.percentage status))
                     (trip_deletion_warning trip_name
                        (db_utils.percentage status)) s)
            else ret (set_confirmation_pending false s)
          else if bool_decide (tool_name = "deactivate_route") then
            let route_name := default "" (tool_args !! "route_name") in
            let* trip_info := check_route_has_active_trips route_name in
            if db_utils.has_trips trip_info then
              ret (pause_for_confirmation last_tool_call
                     (route_deactivation route_name (db_utils.count trip_info))
                     (route_deactivation_warning route_name
                        (db_utils.count trip_info)) s)
            else ret (set_confirmation_pending false s)
          else ret (set_confirmation_pending false s)
      end
  end.

(** *** Node 4: handle_confirmation *)

Definition acceptance_vocabulary : list string :=
  ["yes"; "y"; "confirm"; "proceed"; "ok"; "sure"].

Definition rejection_vocabulary : list string :=
  ["no"; "n"; "cancel"; "abort"; "stop"; "nope"].

(** [last_message.content.lower().strip()] *)
Definition normalise (content : string) : string :=
  str_strip (str_lower content).

Definition cancelled_text : string :=
  "✋ Action cancelled" +:+ nl +:+ nl
  +:+ "The operation was not performed. How else can I help you?".

Definition unclear_text : string :=
  "I didn't understand your response. Please reply with:" +:+ nl
  +:+ "• 'yes' to proceed with the action" +:+ nl
  +:+ "• 'no' to cancel".

(** The state the yes and no branches return: messages added, the three
    confirmation fields reset. *)
Definition resolve_confirmation (new : list Message) (s : AgentState)
    : AgentState :=
  {| messages := messages s ++ new;
     currentPage := currentPage s;
     confirmation_pending := false;
     action_to_confirm := None;
     consequence_info := None;
     image_data := image_data s |}.

(** The state the first guard returns: flag and saved call reset, the
    rest as it was. *)
Definition clear_confirmation (s : AgentState) : AgentState :=
  {| messages := messages s;
     currentPage := currentPage s;
     confirmation_pending := false;
     action_to_confirm := None;
     consequence_info := consequence_info s;
     image_data := image_data s |}.

(** The yes branch: run the saved call and report on it. *)
Definition execute_confirmed (action : ToolCall) : M (list Message) :=
  let tool_name := tc_name action in
  let tool_args := tc_args action in
  let tool_call_id := tc_id action in
  if in_tool_map tool_name then
    let* r := invoke tool_name tool_args in
    match r with
    | Returned tool_output =>
        ret [ToolMessage tool_output tool_call_id;
             AIMessage ("✅ Action completed" +:+ nl +:+ nl +:+ tool_output) []]
    | Raised error_text =>
        ret [ToolMessage ("Error: " +:+ error_text) tool_call_id;
             AIMessage ("❌ Error executing action: " +:+ error_text) []]
    end
  else
    let error_text := "Tool '" +:+ tool_name +:+ "' not found" in
    ret [ToolMessage ("Error: " +:+ error_text) tool_call_id;
         AIMessage ("❌ " +:+ error_text) []].

Definition handle_confirmation (s : AgentState) : M AgentState :=
  match last_message s, action_to_confirm s with
  | Some last, Some action =>
      match last with
      | HumanMessage content =>
          let user_response := normalise content in
          if bool_decide (user_response ∈ acceptance_vocabulary) then
            let* messages_to_add := execute_confirmed action in
            ret (resolve_confirmation messages_to_add s)
          else if bool_decide (user_response ∈ rejection_vocabulary) then
            ret (resolve_confirmation [AIMessage cancelled_text []] s)
          else
            ret (add_messages [AIMessage unclear_text []] s)
      | _ => ret s
      end
  | _, _ => ret (clear_confirmation s)
  end.

(** *** Routing *)

(** The router reads [messages[-1]]; it runs only on what [call_model]
    returned, whose transcript ends with the model's reply. *)
Definition should_continue_after_model (s : AgentState) : Node :=
  match last_message s with
  | Some last =>
      match tool_calls_of last with
      | [] => end_node
      | _ => check_consequences_node
      end
  | None => end_node
  end.

Definition should_get_confirmation (s : AgentState) : Node :=
  if confirmation_pending s then handle_confirmation_node else tools_node.

Definition route_after_confirmation (s : AgentState) : Node := end_node.

Definition start_router (s : AgentState) : Node :=
  if confirmation_pending s then
    match last_message s with
    | Some (HumanMessage _) => handle_confirmation_node
    | _ => call_model_node
    end
  else call_model_node.

(** *** The compiled graph: [movi_agent.invoke(state)] *)

Definition movi_agent (s : AgentState) : M AgentState :=
  match start_router s with
  | handle_confirmation_node => handle_confirmation s
  | _ =>
      let s1 := call_model s in
      match should_continue_after_model s1 with
      | check_consequences_node =>
          let* s2 := check_consequences s1 in
          match should_get_confirmation s2 with
          | handle_confirmation_node => handle_confirmation s2
          | _ => call_tool s2
          end
      | _ => ret s1
      end
  end.

(** *** The stateless entry point: [invoke_agent] *)

Definition initial_state (message current_page : string)
    (image : option string) : AgentState :=
  {| messages := [HumanMessage message];
     currentPage := current_page;
     confirmation_pending := false;
     action_to_confirm := None;
     consequence_info := None;
     image_data := image |}.

(** The newest message that is an AI message with content, or a tool
    message *)
Fixpoint extract_response (reversed : list Message) : string :=
  match reversed with
  | [] => "I processed your request."
  | AIMessage c _ :: rest =>
      if bool_decide (c = "") then extract_response rest else c
  | ToolMessage c _ :: _ => c
  | _ :: rest => extract_response rest
  end.

(** [invoke_agent], for a message whose turn the graph completes; the
    [except] branch, which turns what the graph raises into a reply, has
    no counterpart, as in [chat_endpoint] below. *)
Definition invoke_agent (message current_page : string)
    (image : option string) : M string :=
  let* result := movi_agent (initial_state message current_page image) in
  ret (extract_response (List.rev (messages result))).

(** ** Sessions (backend/main.py) *)

(** A [datetime] is a count of microseconds; [timedelta.total_seconds()]
    turns a difference into seconds. *)
Definition total_seconds (delta : Z) : Q := delta # 1000000.

Definition SESSION_TIMEOUT : Z := 3600.

(** One value of [session_states]: the agent state and what
    [.get("last_access")] gives. *)
Record Session := {
  state : AgentState;
  last_access : option Z
}.

Definition get_session_id_from_page (current_page : string) : string :=
  "session_" +:+ current_page.

Definition new_state (current_page : string) : AgentState :=
  {| messages := [];
     currentPage := current_page;
     confirmation_pending := false;
     action_to_confirm := None;
     consequence_info := None;
     image_data := None |}.

Definition get_or_create_session (now : Z) (session_id current_page : string)
    (session_states : gmap string Session)
    : gmap string Session * AgentState :=
  match session_states !! session_id with
  | None =>
      (<[session_id := {| state := new_state current_page;
                          last_access := Some now |}]> session_states,
       new_state current_page)
  | Some sess =>
      (<[session_id := {| state := state sess;
                          last_access := Some now |}]> session_states,
       state sess)
  end.

(** The test that puts a session id on the [expired] list *)
Definition is_expired (current_time : Z) (sess : Session) : bool :=
  match last_access sess with
  | None => true
  | Some t =>
      let age_seconds := total_seconds (current_time - t) in
      negb (Qle_bool age_seconds (inject_Z SESSION_TIMEOUT))
  end.

Definition cleanup_old_sessions (current_time : Z)
    (session_states : gmap string Session) : gmap string Session :=
  let expired :=
    List.map fst
      (List.filter (fun kv => is_expired current_time (snd kv))
         (map_to_list session_states)) in
  List.fold_left (fun m sid => delete sid m) expired session_states.

(** The session state with the new user message, page and attachment *)
Definition receive (message current_page : string) (image : option string)
    (s : AgentState) : AgentState :=
  {| messages := messages s ++ [HumanMessage message];
     currentPage := current_page;
     confirmation_pending := confirmation_pending s;
     action_to_confirm := action_to_confirm s;
     consequence_info := consequence_info s;
     image_data :=
       match image with
       | Some img => if bool_decide (img = "") then image_data s else Some img
       | None => image_data s
       end |}.

Definition message_content (m : Message) : string :=
  match m with
  | HumanMessage c | AIMessage c _ | SystemMessage c | ToolMessage c _ => c
  end.

(** The newest message that has content and is not the user's *)
Fixpoint agent_response (reversed : list Message) : string :=
  match reversed with
  | [] => "I processed your request."
  | HumanMessage _ :: rest => agent_response rest
  | m :: rest =>
      if bool_decide (message_content m = "") then agent_response rest
      else message_content m
  end.

(** One turn on a session state: the message is added, the graph runs. *)
Definition turn (message current_page : string) (image : option string)
    (s : AgentState) : M AgentState :=
  movi_agent (receive message current_page image s).

(** [chat_endpoint], for a request whose turn the graph completes: the
    three clock readings are those of the sweep, of the session lookup and
    of the final write.  The handler's [except] branch, which answers a
    request whose turn raises with an apology and stores no result, has no
    counterpart: the graph of this embedding raises nothing. *)
Definition chat_endpoint (t_sweep t_load t_save : Z)
    (message current_page : string) (image : option string)
    (session_states : gmap string Session)
    : M (string * gmap string Session) :=
  let swept := cleanup_old_sessions t_sweep session_states in
  let session_id := get_session_id_from_page current_page in
  let '(loaded, session_state) :=
    get_or_create_session t_load session_id current_page swept in
  let* result := turn message current_page image session_state in
  ret (agent_response (List.rev (messages result)),
       <[session_id := {| state := result; last_access := Some t_save |}]>
         loaded).

End Agent.

(** ** The text helpers on ASCII text *)

(** For ASCII text the two methods are those of [PyStr]. *)
Definition normalise_ascii : string -> string :=
  normalise PyStr.lower PyStr.strip.

Definition format_tool_output_ascii (format_trip_status : string -> string)
    : string -> string -> string :=
  format_tool_output format_trip_status PyStr.lower PyStr.strip.

(** ** Sample data, after backend/seed.py *)

Module Sample.

Definition route (rid : Z) (name time st : string) : Route :=
  {| route_id := rid; path_id := 1; route_display_name := name;
     shift_time := time; direction := "Inbound";
     start_point := "Gavipuram"; end_point := "Peenya"; status := st |}.

Definition trip (tid rid : Z) (name : string) (pct : Q) (live : string)
    : DailyTrip :=
  {| trip_id := tid; trip_route_id := rid; display_name := name;
     booking_status_percentage := pct; live_status := live |}.

Definition database : Database :=
  {| routes :=
       [ route 1 "Path-1 - 07:00" "07:00" "active";
         route 3 "Path-2 - 08:30" "08:30" "active";
         route 7 "South-Loop - 06:45" "06:45" "active";
         route 8 "South-Loop - 18:00" "18:00" "deactivated" ];
     vehicles :=
       [ {| vehicle_id := 1; license_plate := "KA-01-AB-1234";
            vehicle_type := "Bus"; capacity := 40 |} ];
     daily_trips :=
       [ trip 1 1 "Bulk - 00:01" 25 "00:01 IN";
         trip 3 3 "Path Path - 00:02" 0 "NOT STARTED";
         trip 8 1 "Path-1 Extra - 07:15" 0 "NOT STARTED" ];
     deployments :=
       [ {| deployment_id := 1; dep_trip_id := 1;
            dep_vehicle_id := Some 1%Z; dep_driver_id := Some 1%Z |};
         {| deployment_id := 2; dep_trip_id := 3;
            dep_vehicle_id := None; dep_driver_id := None |} ] |}.

Definition world : World := {| db := database; trace := [] |}.

(** The two registered tools whose db_utils body is embedded above, with
    the argument check [invoke] makes first; the remaining tools are not
    embedded and are represented by an empty result. *)
Definition tool_body (tool_name : string) (tool_args : gmap string string)
    (d : Database) : Outcome * Database :=
  if bool_decide (tool_name = "deactivate_route") then
    match tool_args !! "route_name" with
    | Some route_name =>
        let (text, d') := db_utils.deactivate_route d route_name in
        (Returned text, d')
    | None => (Raised "route_name: Field required", d)
    end
  else if bool_decide (tool_name = "remove_vehicle_from_trip") then
    match tool_args !! "trip_name" with
    | Some trip_name =>
        let (text, d') := db_utils.delete_vehicle_from_trip d trip_name in
        (Returned text, d')
    | None => (Raised "trip_name: Field required", d)
    end
  else (Returned "", d).

Definition call (tool_name arg value : string) : ToolCall :=
  {| tc_name := tool_name; tc_args := {[ arg := value ]};
     tc_id := "call_1" |}.

(** A scripted stand-in for the language model: it answers the last
    message of the transcript. *)
Definition llm (current_page : string) (transcript : list Message)
    : LlmOutcome :=
  match List.last (List.map Some transcript) None with
  | Some (HumanMessage "Remove the vehicle from Bulk - 00:01") =>
      LlmReply "" [call "remove_vehicle_from_trip" "trip_name" "Bulk - 00:01"]
  | Some (HumanMessage "Remove the vehicle from Path Path - 00:02") =>
      LlmReply ""
        [call "remove_vehicle_from_trip" "trip_name" "Path Path - 00:02";
         call "deactivate_route" "route_name" "South-Loop - 06:45";
         call "plan_route" "city" "Bengaluru"]
  | Some (HumanMessage "Deactivate Path-1 - 07:00") =>
      LlmReply "" [call "deactivate_route" "route_name" "Path-1 - 07:00"]
  | _ => LlmReply "How can I help you?" []
  end.

Definition process_image_with_vision (image last_user page : string)
    : string := "".

(** Whole percentages only, which is all the sample data holds. *)
Definition str_float (q : Q) : string :=
  PyStr.str_nat (Z.to_nat (Qnum q / Zpos (Qden q))) +:+ ".0".

Definition format_trip_status (text : string) : string := text.

(** The messages and results of the sample runs are made of ASCII text
    and of symbols that have neither case nor the white-space property,
    on which the two methods are those of [PyStr]. *)
Definition agent : AgentState -> M AgentState :=
  movi_agent true llm process_image_with_vision tool_body str_float
    format_trip_status PyStr.lower PyStr.strip.

Definition turn (message : string) : AgentState -> M AgentState :=
  turn true llm process_image_with_vision tool_body str_float
    format_trip_status PyStr.lower PyStr.strip message "busDashboard" None.

Definition fresh : AgentState := new_state "busDashboard".

(** The state the graph is given when the user sends [message] in a new
    session. *)
Definition asked (message : string) : AgentState :=
  receive message "busDashboard" None fresh.

Definition model : AgentState -> AgentState :=
  call_model true llm process_image_with_vision.

Definition remove_booked : ToolCall :=
  call "remove_vehicle_from_trip" "trip_name" "Bulk - 00:01".

Definition remove_unbooked : ToolCall :=
  call "remove_vehicle_from_trip" "trip_name" "Path Path - 00:02".

(** The session state after the user asked to remove the vehicle of a
    booked trip. *)
Definition paused : AgentState :=
  fst (turn "Remove the vehicle from Bulk - 00:01" fresh world).

End Sample.

(** ** Vocabulary of the specification *)

(** The transcript of [s] ends with a reply of the model that proposes the
    calls [tcs], in that order. *)
Definition proposes (s : AgentState) (c : string) (tcs : list ToolCall)
    : Prop :=
  last_message s = Some (AIMessage c tcs).

(** The trip, respectively the route, a call names. *)
Definition named_trip (tc : ToolCall) : string :=
  default "" (tc_args tc !! "trip_name").

Definition named_route (tc : ToolCall) : string :=
  default "" (tc_args tc !! "route_name").

(** The booking percentage of the trip called [trip_name], if there is one *)
Definition trip_booking_percentage (d : Database) (trip_name : string)
    : option Q :=
  booking_status_percentage
    <$> db_utils.first_by display_name trip_name (daily_trips d).

(** The number of trips that reference the route called [route_name], if
    there is one *)
Definition route_trip_count (d : Database) (route_name : string)
    : option nat :=
  (fun r => length (db_utils.all_by trip_route_id (route_id r) (daily_trips d)))
    <$> db_utils.first_by route_display_name route_name (routes d).

(** Executing [tc] now would affect bookings or trips. *)
Inductive at_risk (d : Database) (tc : ToolCall) : Prop :=
| risk_vehicle_removal (p : Q) :
    tc_name tc = "remove_vehicle_from_trip" ->
    trip_booking_percentage d (named_trip tc) = Some p ->
    (0 < p)%Q ->
    at_risk d tc
| risk_trip_deletion (p : Q) :
    tc_name tc = "delete_daily_trip" ->
    trip_booking_percentage d (named_trip tc) = Some p ->
    (0 < p)%Q ->
    at_risk d tc
| risk_route_deactivation (n : nat) :
    tc_name tc = "deactivate_route" ->
    route_trip_count d (named_route tc) = Some n ->
    (0 < n)%nat ->
    at_risk d tc.

(** The subject a guarded call names has a nonzero booking percentage,
    respectively a nonzero number of trips. *)
Inductive nonzero_subject (d : Database) (tc : ToolCall) : Prop :=
| nonzero_bookings (p : Q) :
    tc_name tc = "remove_vehicle_from_trip"
    \/ tc_name tc = "delete_daily_trip" ->
    trip_booking_percentage d (named_trip tc) = Some p ->
    ~ (p == 0)%Q ->
    nonzero_subject d tc
| nonzero_trips (n : nat) :
    tc_name tc = "deactivate_route" ->
    route_trip_count d (named_route tc) = Some n ->
    n <> 0%nat ->
    nonzero_subject d tc.

(** The percentages of the table are within the range database.py documents
    and [create_daily_trip] enforces. *)
Definition percentages_in_range (d : Database) : Prop :=
  Forall (fun t => (0 <= booking_status_percentage t
                    /\ booking_status_percentage t <= 100)%Q)
    (daily_trips d).

(** The calls that reached the tools, as the data layer saw them *)
Definition invocations (tcs : list ToolCall) : list Event :=
  List.map (fun tc => Invoke (tc_name tc) (tc_args tc))
    (List.filter (fun tc => in_tool_map (tc_name tc)) tcs).

Definition is_query (e : Event) : Prop :=
  match e with
  | Query _ _ => True
  | Invoke _ _ => False
  end.

(** The invariant of the session state: a confirmation is pending exactly
    when a call is saved for it. *)
Definition confirmation_invariant (s : AgentState) : Prop :=
  confirmation_pending s = true <-> is_Some (action_to_confirm s).

(** * Properties *)

(** ** Route deactivation *)

Section RouteDeactivation.

Import db_utils.

Lemma first_by_deactivate_first (route_name : string) (rs : list Route)
    (r : Route) :
  first_by route_display_name route_name rs = Some r ->
  first_by route_display_name route_name (deactivate_first route_name rs)
  = Some (set_status "deactivated" r).
Proof.
  unfold first_by.
  induction rs as [|r0 rs IH]; simpl; [discriminate|].
  destruct (bool_decide (route_display_name r0 = route_name)) eqn:E; simpl.
  - intros [= ->]. now rewrite E.
  - rewrite E. exact IH.
Qed.

Lemma deactivate_route_found_active (d : Database) (route_name : string)
    (r : Route) :
  first_by route_display_name route_name (routes d) = Some r ->
  status r <> "deactivated" ->
  deactivate_route d route_name
  = ("✅ Route '" +:+ route_name +:+ "' has been deactivated",
     with_routes d (deactivate_first route_name (routes d))).
Proof.
  intros Hf Hs. unfold deactivate_route. rewrite Hf.
  now rewrite bool_decide_eq_false_2.
Qed.

Lemma deactivate_route_found_deactivated (d : Database)
    (route_name : string) (r : Route) :
  first_by route_display_name route_name (routes d) = Some r ->
  status r = "deactivated" ->
  deactivate_route d route_name
  = ("Route '" +:+ route_name +:+ "' is already deactivated.", d).
Proof.
  intros Hf Hs. unfold deactivate_route. rewrite Hf.
  now rewrite bool_decide_eq_true_2.
Qed.

(** C10. A call of [deactivate_route] on a route that is already
    deactivated answers "already deactivated" and leaves the database as
    it is; hence for every existing route a second call, made right after
    a first one, gives that answer and changes nothing: two calls leave
    the database where one call leaves it. *)
Theorem deactivate_route_idempotent (d : Database) (route_name : string)
    (r : Route) :
  first_by route_display_name route_name (routes d) = Some r ->
  (status r = "deactivated" ->
   deactivate_route d route_name
   = ("Route '" +:+ route_name +:+ "' is already deactivated.", d))
  /\ deactivate_route (snd (deactivate_route d route_name)) route_name
     = ("Route '" +:+ route_name +:+ "' is already deactivated.",
        snd (deactivate_route d route_name)).
Proof.
  intros Hf. split.
  - now apply deactivate_route_found_deactivated.
  - destruct (decide (status r = "deactivated")) as [Hs|Hs].
    + rewrite (deactivate_route_found_deactivated d route_name r Hf Hs).
      simpl. now apply deactivate_route_found_deactivated with r.
    + rewrite (deactivate_route_found_active d route_name r Hf Hs). simpl.
      apply deactivate_route_found_deactivated
        with (set_status "deactivated" r); [|reflexivity].
      simpl. now apply first_by_deactivate_first.
Qed.

Lemma deactivate_route_idempotent_witness :
  first_by route_display_name "Path-1 - 07:00" (routes Sample.database)
  = Some (Sample.route 1 "Path-1 - 07:00" "07:00" "active")
  /\ deactivate_route
       (snd (deactivate_route Sample.database "Path-1 - 07:00"))
       "Path-1 - 07:00"
     = ("Route 'Path-1 - 07:00' is already deactivated.",
        snd (deactivate_route Sample.database "Path-1 - 07:00")).
Proof.
  split; [reflexivity|].
  apply (deactivate_route_idempotent Sample.database "Path-1 - 07:00"
           (Sample.route 1 "Path-1 - 07:00" "07:00" "active")).
  reflexivity.
Defined.

End RouteDeactivation.

(** ** The consequence check *)

Section ConsequenceCheck.

Variable str_float : Q -> string.

Lemma positive_iff (p : Q) : db_utils.positive p = true <-> (0 < p)%Q.
Proof.
  unfold db_utils.positive. rewrite negb_true_iff.
  split.
  - intros H. apply Qnot_le_lt. intros Hle.
    apply Qle_bool_iff in Hle. congruence.
  - intros H. destruct (Qle_bool p 0) eqn:E; [|reflexivity].
    apply Qle_bool_iff in E. exfalso. exact (Qlt_not_le _ _ H E).
Qed.

Lemma has_bookings_iff (d : Database) (trip_name : string) :
  db_utils.has_bookings (db_utils.check_trip_has_bookings d trip_name) = true
  <-> exists p, trip_booking_percentage d trip_name = Some p /\ (0 < p)%Q.
Proof.
  unfold db_utils.check_trip_has_bookings, trip_booking_percentage.
  destruct (db_utils.first_by display_name trip_name (daily_trips d)) as [t|]; simpl.
  - rewrite positive_iff. split.
    + intros H. eauto.
    + intros (p & [= <-] & H). exact H.
  - split; [discriminate|]. intros (p & [=] & _).
Qed.

Lemma has_trips_iff (d : Database) (route_name : string) :
  db_utils.has_trips (db_utils.check_route_has_active_trips d route_name) = true
  <-> exists n, route_trip_count d route_name = Some n /\ (0 < n)%nat.
Proof.
  unfold db_utils.check_route_has_active_trips, route_trip_count.
  destruct (db_utils.first_by route_display_name route_name (routes d)) as [r|]; simpl.
  - rewrite Nat.ltb_lt. split.
    + intros H. eauto.
    + intros (n & [= <-] & H). exact H.
  - split; [discriminate|]. intros (n & [=] & _).
Qed.

(** What [check_consequences] finds out about the first proposed call: the
    consequence details and the warning when it pauses, nothing when it lets
    the call through. *)
Definition verdict (d : Database) (tc : ToolCall)
    : option (ConsequenceInfo * string) :=
  if bool_decide (tc_name tc = "remove_vehicle_from_trip") then
    let status := db_utils.check_trip_has_bookings d (named_trip tc) in
    if db_utils.has_bookings status
    then Some (vehicle_removal (named_trip tc) (db_utils.percentage status),
               vehicle_removal_warning str_float (named_trip tc)
                 (db_utils.percentage status))
    else None
  else if bool_decide (tc_name tc = "delete_daily_trip") then
    let status := db_utils.check_trip_has_bookings d (named_trip tc) in
    if db_utils.has_bookings status
    then Some (trip_deletion (named_trip tc) (db_utils.percentage status),
               trip_deletion_warning str_float (named_trip tc)
                 (db_utils.percentage status))
    else None
  else if bool_decide (tc_name tc = "deactivate_route") then
    let trip_info := db_utils.check_route_has_active_trips d (named_route tc) in
    if db_utils.has_trips trip_info
    then Some (route_deactivation (named_route tc) (db_utils.count trip_info),
               route_deactivation_warning (named_route tc) (db_utils.count trip_info))
    else None
  else None.

(** The reads [check_consequences] makes for the first proposed call *)
Definition lookups (tc : ToolCall) : list Event :=
  if bool_decide (tc_name tc = "remove_vehicle_from_trip")
  then [Query "check_trip_has_bookings" (named_trip tc)]
  else if bool_decide (tc_name tc = "delete_daily_trip")
  then [Query "check_trip_has_bookings" (named_trip tc)]
  else if bool_decide (tc_name tc = "deactivate_route")
  then [Query "check_route_has_active_trips" (named_route tc)]
  else [].

Lemma world_eta (w : World) : {| db := db w; trace := trace w ++ [] |} = w.
Proof. destruct w; simpl. now rewrite app_nil_r. Qed.

Lemma check_consequences_verdict (s : AgentState) (w : World) (c : string)
    (tc : ToolCall) (rest : list ToolCall) :
  proposes s c (tc :: rest) ->
  check_consequences str_float s w
  = (match verdict (db w) tc with
     | Some (info, warning) => pause_for_confirmation tc info warning s
     | None => set_confirmation_pending false s
     end,
     {| db := db w; trace := trace w ++ lookups tc |}).
Proof.
  intros Hlast. unfold proposes in Hlast.
  unfold check_consequences, verdict, lookups. rewrite Hlast. simpl.
  fold (named_trip tc). fold (named_route tc).
  repeat case_bool_decide;
    unfold bind, check_trip_has_bookings, check_route_has_active_trips,
      ret, record;
    try match goal with
        | |- context [db_utils.has_bookings ?x] => destruct (db_utils.has_bookings x)
        | |- context [db_utils.has_trips ?x] => destruct (db_utils.has_trips x)
        end;
    try reflexivity.
  now rewrite world_eta.
Qed.

Lemma lookups_are_queries (tc : ToolCall) : Forall is_query (lookups tc).
Proof.
  unfold lookups. repeat case_bool_decide; repeat constructor.
Qed.

Lemma verdict_at_risk (d : Database) (tc : ToolCall) :
  is_Some (verdict d tc) <-> at_risk d tc.
Proof.
  unfold verdict. split.
  - repeat case_bool_decide.
    + destruct (db_utils.has_bookings _) eqn:E; [|intros [? [=]]].
      intros _. apply has_bookings_iff in E as (p & Hp & Hpos).
      now apply risk_vehicle_removal with p.
    + destruct (db_utils.has_bookings _) eqn:E; [|intros [? [=]]].
      intros _. apply has_bookings_iff in E as (p & Hp & Hpos).
      now apply risk_trip_deletion with p.
    + destruct (db_utils.has_trips _) eqn:E; [|intros [? [=]]].
      intros _. apply has_trips_iff in E as (n & Hn & Hpos).
      now apply risk_route_deactivation with n.
    + intros [? [=]].
  - intros [p Hname Hp Hpos|p Hname Hp Hpos|n Hname Hn Hpos].
    + rewrite bool_decide_eq_true_2 by exact Hname.
      assert (E : db_utils.has_bookings
                    (db_utils.check_trip_has_bookings d (named_trip tc)) = true)
        by (apply has_bookings_iff; eauto).
      rewrite E. eauto.
    + rewrite bool_decide_eq_false_2 by (rewrite Hname; discriminate).
      rewrite bool_decide_eq_true_2 by exact Hname.
      assert (E : db_utils.has_bookings
                    (db_utils.check_trip_has_bookings d (named_trip tc)) = true)
        by (apply has_bookings_iff; eauto).
      rewrite E. eauto.
    + rewrite bool_decide_eq_false_2 by (rewrite Hname; discriminate).
      rewrite bool_decide_eq_false_2 by (rewrite Hname; discriminate).
      rewrite bool_decide_eq_true_2 by exact Hname.
      assert (E : db_utils.has_trips
                    (db_utils.check_route_has_active_trips d (named_route tc))
                  = true)
        by (apply has_trips_iff; eauto).
      rewrite E. eauto.
Qed.

Lemma verdict_other_action (d : Database) (tc : ToolCall) :
  tc_name tc ∉ ["remove_vehicle_from_trip"; "delete_daily_trip";
                "deactivate_route"] ->
  verdict d tc = None /\ lookups tc = [].
Proof.
  intros Hn. unfold verdict, lookups.
  repeat case_bool_decide; try (split; reflexivity);
    exfalso; apply Hn; set_solver.
Qed.

(** C6. The consequence check flags a risk for the first proposed call
    exactly when the call is [remove_vehicle_from_trip] or
    [delete_daily_trip] and the trip it names has a booking percentage
    strictly above 0, or it is [deactivate_route] and the number of trips
    that reference the route it names is strictly above 0. A name that
    resolves to no trip, or to no route, is reported as percentage 0, or
    count 0, without risk; a call of any other name is let through without
    any lookup, whatever its arguments. *)
Theorem consequence_check_flags_risk_exactly (s : AgentState) (w : World)
    (c : string) (tc : ToolCall) (rest : list ToolCall) :
  proposes s c (tc :: rest) ->
  (confirmation_pending (fst (check_consequences str_float s w)) = true
   <-> at_risk (db w) tc)
  /\ (forall trip_name,
        trip_booking_percentage (db w) trip_name = None ->
        db_utils.check_trip_has_bookings (db w) trip_name
        = {| db_utils.has_bookings := false; db_utils.percentage := 0 |})
  /\ (forall route_name,
        route_trip_count (db w) route_name = None ->
        db_utils.check_route_has_active_trips (db w) route_name
        = {| db_utils.has_trips := false; db_utils.count := 0 |})
  /\ (tc_name tc ∉ ["remove_vehicle_from_trip"; "delete_daily_trip";
                    "deactivate_route"] ->
      check_consequences str_float s w = (set_confirmation_pending false s, w)).
Proof.
  intros Hp. rewrite (check_consequences_verdict s w c tc rest Hp).
  repeat split.
  - simpl. intros H. apply verdict_at_risk.
    destruct (verdict (db w) tc) as [[info warning]|]; [eauto|discriminate].
  - simpl. intros H. apply verdict_at_risk in H as [[info warning] ->].
    reflexivity.
  - intros n. unfold trip_booking_percentage, db_utils.check_trip_has_bookings.
    now destruct (db_utils.first_by display_name n (daily_trips (db w))).
  - intros n.
    unfold route_trip_count, db_utils.check_route_has_active_trips.
    now destruct (db_utils.first_by route_display_name n (routes (db w))).
  - intros Hn. destruct (verdict_other_action (db w) tc Hn) as [-> ->].
    now rewrite world_eta.
Qed.

End ConsequenceCheck.

(** ** Turns *)

Section Turns.

Variable USE_LLM_MODE : bool.
Variable llm : string -> list Message -> LlmOutcome.
Variable process_image_with_vision : string -> string -> string -> string.
Variable tool_body :
  string -> gmap string string -> Database -> Outcome * Database.
Variable str_float : Q -> string.
Variable format_trip_status : string -> string.
Variable str_lower : string -> string.
Variable str_strip : string -> string.

Local Abbreviation call_model' :=
  (call_model USE_LLM_MODE llm process_image_with_vision).
Local Abbreviation format_tool_output' :=
  (format_tool_output format_trip_status str_lower str_strip).
Local Abbreviation execute_tool_call' :=
  (execute_tool_call tool_body format_trip_status str_lower str_strip).
Local Abbreviation call_tool' :=
  (call_tool tool_body format_trip_status str_lower str_strip).
Local Abbreviation execute_confirmed' := (execute_confirmed tool_body).
Local Abbreviation normalise' := (normalise str_lower str_strip).
Local Abbreviation handle_confirmation' :=
  (handle_confirmation tool_body str_lower str_strip).
Local Abbreviation movi_agent' :=
  (movi_agent USE_LLM_MODE llm process_image_with_vision tool_body str_float
     format_trip_status str_lower str_strip).
Local Abbreviation turn' :=
  (turn USE_LLM_MODE llm process_image_with_vision tool_body str_float
     format_trip_status str_lower str_strip).

(** The message with which a tool call is answered *)
Definition answers (tc : ToolCall) (m : Message) : Prop :=
  exists content, m = ToolMessage content (tc_id tc).

(** [executed d tcs ms d']: the calls [tcs] were carried out one after the
    other, the first on the database [d], each on the database its
    predecessor left, the last leaving [d']; [ms] holds, in the order of
    the calls, the tool message that reports each of them.  A registered
    operation is applied to the arguments of the call and reported by its
    formatted result, or by its error when it raises; a name that is not
    registered leaves the database alone. *)
Inductive executed
    : Database -> list ToolCall -> list Message -> Database -> Prop :=
| executed_none (d : Database) : executed d [] [] d
| executed_returned (d d1 d' : Database) (tc : ToolCall)
    (rest : list ToolCall) (result : string) (ms : list Message) :
    in_tool_map (tc_name tc) = true ->
    tool_body (tc_name tc) (tc_args tc) d = (Returned result, d1) ->
    executed d1 rest ms d' ->
    executed d (tc :: rest)
      (ToolMessage (format_tool_output' (tc_name tc) result) (tc_id tc) :: ms)
      d'
| executed_raised (d d1 d' : Database) (tc : ToolCall)
    (rest : list ToolCall) (e : string) (ms : list Message) :
    in_tool_map (tc_name tc) = true ->
    tool_body (tc_name tc) (tc_args tc) d = (Raised e, d1) ->
    executed d1 rest ms d' ->
    executed d (tc :: rest) (ToolMessage ("Error: " +:+ e) (tc_id tc) :: ms) d'
| executed_unregistered (d d' : Database) (tc : ToolCall)
    (rest : list ToolCall) (ms : list Message) :
    in_tool_map (tc_name tc) = false ->
    executed d rest ms d' ->
    executed d (tc :: rest)
      (ToolMessage ("Error: Tool '" +:+ tc_name tc +:+ "' not found")
         (tc_id tc) :: ms)
      d'.

Lemma last_snoc (l : list Message) (m : Message) :
  List.last (List.map Some (l ++ [m])) None = Some m.
Proof. rewrite List.map_app. simpl. apply List.last_last. Qed.

Lemma last_message_receive (message page : string) (image : option string)
    (s : AgentState) :
  last_message (receive message page image s) = Some (HumanMessage message).
Proof. unfold last_message, receive; simpl. apply last_snoc. Qed.

Lemma start_router_receive (message page : string) (image : option string)
    (s : AgentState) :
  start_router (receive message page image s)
  = if confirmation_pending s then handle_confirmation_node
    else call_model_node.
Proof.
  unfold start_router. rewrite last_message_receive. reflexivity.
Qed.

Lemma last_message_call_model (s : AgentState) :
  exists c tcs, last_message (call_model' s) = Some (AIMessage c tcs).
Proof.
  unfold call_model, last_message.
  destruct (image_data s) as [img|]; [destruct (bool_decide (img = ""))|];
    simpl;
    destruct USE_LLM_MODE; try destruct (llm _ _); simpl;
    rewrite last_snoc; eauto.
Qed.

Lemma call_model_confirmation (s : AgentState) :
  confirmation_pending (call_model' s) = confirmation_pending s
  /\ action_to_confirm (call_model' s) = action_to_confirm s.
Proof.
  unfold call_model.
  destruct (image_data s) as [img|]; [destruct (bool_decide (img = ""))|];
    simpl; split; reflexivity.
Qed.

(** *** Executing tool calls *)

Lemma execute_tool_call_unregistered (tc : ToolCall) (w : World) :
  in_tool_map (tc_name tc) = false ->
  execute_tool_call' tc w
  = (ToolMessage ("Error: Tool '" +:+ tc_name tc +:+ "' not found") (tc_id tc),
     w).
Proof. intros H. unfold execute_tool_call. now rewrite H. Qed.

Lemma execute_tool_call_registered (tc : ToolCall) (w : World) :
  in_tool_map (tc_name tc) = true ->
  execute_tool_call' tc w
  = (match fst (tool_body (tc_name tc) (tc_args tc) (db w)) with
     | Returned result =>
         ToolMessage (format_tool_output' (tc_name tc) result) (tc_id tc)
     | Raised e => ToolMessage ("Error: " +:+ e) (tc_id tc)
     end,
     {| db := snd (tool_body (tc_name tc) (tc_args tc) (db w));
        trace := trace w ++ [Invoke (tc_name tc) (tc_args tc)] |}).
Proof.
  intros H. unfold execute_tool_call, bind, invoke. rewrite H.
  destruct (tool_body _ _ _) as [[result|e] d']; reflexivity.
Qed.

Lemma execute_tool_call_answers (tc : ToolCall) (w : World) :
  answers tc (fst (execute_tool_call' tc w))
  /\ trace (snd (execute_tool_call' tc w)) = trace w ++ invocations [tc].
Proof.
  unfold invocations; simpl.
  destruct (in_tool_map (tc_name tc)) eqn:E.
  - rewrite execute_tool_call_registered by exact E. simpl. split; [|reflexivity].
    destruct (fst _); eexists; reflexivity.
  - rewrite execute_tool_call_unregistered by exact E. simpl.
    rewrite app_nil_r. split; [eexists|]; reflexivity.
Qed.

Lemma invocations_cons (tc : ToolCall) (tcs : list ToolCall) :
  invocations (tc :: tcs) = invocations [tc] ++ invocations tcs.
Proof.
  unfold invocations; simpl. destruct (in_tool_map (tc_name tc)); reflexivity.
Qed.

Lemma for_each_execute (tcs : list ToolCall) (w : World) :
  Forall2 answers tcs (fst (for_each execute_tool_call' tcs w))
  /\ trace (snd (for_each execute_tool_call' tcs w))
     = trace w ++ invocations tcs.
Proof.
  revert w. induction tcs as [|tc tcs IH]; intros w; simpl.
  - split; [constructor|]. unfold invocations; simpl. now rewrite app_nil_r.
  - unfold bind.
    destruct (execute_tool_call_answers tc w) as [Ha Ht].
    destruct (execute_tool_call' tc w) as [m w1]; simpl in *.
    destruct (IH w1) as [Hf Htr].
    destruct (for_each execute_tool_call' tcs w1) as [ms w2]; simpl in *.
    split; [now constructor|].
    rewrite Htr, Ht, (invocations_cons tc tcs). now rewrite <- List.app_assoc.
Qed.

Lemma for_each_executed (tcs : list ToolCall) (w : World) :
  executed (db w) tcs (fst (for_each execute_tool_call' tcs w))
    (db (snd (for_each execute_tool_call' tcs w))).
Proof.
  revert w. induction tcs as [|tc tcs IH]; intros w; simpl.
  - constructor.
  - unfold bind.
    destruct (in_tool_map (tc_name tc)) eqn:E.
    + rewrite execute_tool_call_registered by exact E.
      destruct (tool_body (tc_name tc) (tc_args tc) (db w))
        as [[result|e] d1] eqn:Eb; cbn [fst snd];
        match goal with
        | |- context [for_each _ tcs ?w1] =>
            specialize (IH w1); destruct (for_each _ tcs w1) as [ms w2]
        end; cbn [fst snd db] in *.
      * now apply executed_returned with d1.
      * now apply executed_raised with d1.
    + rewrite execute_tool_call_unregistered by exact E.
      specialize (IH w).
      destruct (for_each execute_tool_call' tcs w) as [ms w2];
        cbn [fst snd] in *.
      now apply executed_unregistered.
Qed.

Lemma call_tool_proposed (s : AgentState) (w : World) (c : string)
    (tc : ToolCall) (rest : list ToolCall) :
  proposes s c (tc :: rest) ->
  call_tool' s w
  = (add_messages (fst (for_each execute_tool_call' (tc :: rest) w)) s,
     snd (for_each execute_tool_call' (tc :: rest) w)).
Proof.
  intros Hp. unfold call_tool. rewrite Hp. cbn [tool_calls_of].
  unfold bind, ret.
  now destruct (for_each execute_tool_call' (tc :: rest) w).
Qed.

Lemma execute_confirmed_registered (action : ToolCall) (w : World) :
  in_tool_map (tc_name action) = true ->
  execute_confirmed' action w
  = (match fst (tool_body (tc_name action) (tc_args action) (db w)) with
     | Returned tool_output =>
         [ToolMessage tool_output (tc_id action);
          AIMessage ("✅ Action completed" +:+ nl +:+ nl +:+ tool_output) []]
     | Raised error_text =>
         [ToolMessage ("Error: " +:+ error_text) (tc_id action);
          AIMessage ("❌ Error executing action: " +:+ error_text) []]
     end,
     {| db := snd (tool_body (tc_name action) (tc_args action) (db w));
        trace := trace w ++ [Invoke (tc_name action) (tc_args action)] |}).
Proof.
  intros H. unfold execute_confirmed. rewrite H. unfold bind, invoke.
  destruct (tool_body _ _ _) as [[tool_output|error_text] d']; reflexivity.
Qed.

(** C8. Executing a proposed call always ends with a tool message for that
    call, never with an exception: a name that is not in the registry gives
    the message "Error: Tool '...' not found", and a registered operation
    that raises gives a message that starts with "Error: " followed by the
    text of the exception. The same holds when the confirmed call is
    executed, and a turn that executes the proposed calls ends with one
    tool message per call. *)
Theorem tool_execution_reports_failures (tc : ToolCall) (w : World) :
  answers tc (fst (execute_tool_call' tc w))
  /\ (in_tool_map (tc_name tc) = false ->
      execute_tool_call' tc w
      = (ToolMessage ("Error: Tool '" +:+ tc_name tc +:+ "' not found")
           (tc_id tc), w)
      /\ execute_confirmed' tc w
         = ([ToolMessage ("Error: Tool '" +:+ tc_name tc +:+ "' not found")
               (tc_id tc);
             AIMessage ("❌ Tool '" +:+ tc_name tc +:+ "' not found") []], w))
  /\ (forall e d',
        in_tool_map (tc_name tc) = true ->
        tool_body (tc_name tc) (tc_args tc) (db w) = (Raised e, d') ->
        fst (execute_tool_call' tc w) = ToolMessage ("Error: " +:+ e) (tc_id tc)
        /\ fst (execute_confirmed' tc w)
           = [ToolMessage ("Error: " +:+ e) (tc_id tc);
              AIMessage ("❌ Error executing action: " +:+ e) []])
  /\ (forall s c rest,
        proposes s c (tc :: rest) ->
        exists tool_messages w',
          call_tool' s w = (add_messages tool_messages s, w')
          /\ Forall2 answers (tc :: rest) tool_messages).
Proof.
  split; [apply execute_tool_call_answers|].
  split; [|split].
  - intros H. split; [now apply execute_tool_call_unregistered|].
    unfold execute_confirmed. now rewrite H.
  - intros e d' H Hb. split.
    + rewrite execute_tool_call_registered by exact H. now rewrite Hb.
    + rewrite execute_confirmed_registered by exact H. now rewrite Hb.
  - intros s c rest Hp. rewrite (call_tool_proposed s w c tc rest Hp).
    do 2 eexists. split; [reflexivity|]. apply for_each_execute.
Qed.

(** *** The confirmation gate *)

Lemma rejection_not_acceptance (r : string) :
  r ∈ rejection_vocabulary -> r ∉ acceptance_vocabulary.
Proof.
  unfold rejection_vocabulary, acceptance_vocabulary. intros H.
  repeat (apply elem_of_cons in H as [->|H]); try (now apply elem_of_nil in H);
    intros Hin;
    repeat (apply elem_of_cons in Hin as [Hin|Hin]; [discriminate|]);
    now apply elem_of_nil in Hin.
Qed.

(** C3. When a confirmation is pending, the call saved for it is a
    registered one, and the user's reply, lower-cased and trimmed, is one of
    yes, y, confirm, proceed, ok, sure, then the turn makes exactly one call
    to the data layer, that of the saved tool with the saved arguments; the
    state after the turn has no confirmation pending, no saved call and no
    consequence details, and its transcript has gained the reply, the tool
    message and an acknowledgment of success or of the error. *)
Theorem accepted_reply_executes_saved_call (reply page : string)
    (image : option string) (s : AgentState) (w : World) (action : ToolCall) :
  confirmation_pending s = true ->
  action_to_confirm s = Some action ->
  in_tool_map (tc_name action) = true ->
  normalise' reply ∈ acceptance_vocabulary ->
  exists tool_text ack,
    match fst (tool_body (tc_name action) (tc_args action) (db w)) with
    | Returned tool_output =>
        tool_text = tool_output
        /\ ack = "✅ Action completed" +:+ nl +:+ nl +:+ tool_output
    | Raised error_text =>
        tool_text = "Error: " +:+ error_text
        /\ ack = "❌ Error executing action: " +:+ error_text
    end
    /\ turn' reply page image s w
       = ({| messages :=
               (messages s ++ [HumanMessage reply])
               ++ [ToolMessage tool_text (tc_id action); AIMessage ack []];
             currentPage := page;
             confirmation_pending := false;
             action_to_confirm := None;
             consequence_info := None;
             image_data := image_data (receive reply page image s) |},
          {| db := snd (tool_body (tc_name action) (tc_args action) (db w));
             trace := trace w ++ [Invoke (tc_name action) (tc_args action)] |}).
Proof.
  intros Hpend Hact Hreg Hyes.
  unfold turn, movi_agent. rewrite start_router_receive, Hpend.
  unfold handle_confirmation. rewrite last_message_receive.
  cbn [receive action_to_confirm]. rewrite Hact.
  rewrite bool_decide_eq_true_2 by exact Hyes.
  unfold bind. rewrite execute_confirmed_registered by exact Hreg.
  cbn [db trace receive].
  destruct (tool_body (tc_name action) (tc_args action) (db w))
    as [[tool_output|error_text] d']; cbn [fst snd];
    do 2 eexists; (split; [split; reflexivity|reflexivity]).
Qed.

(** C4. When a confirmation is pending for a saved call and the user's
    reply, lower-cased and trimmed, is one of no, n, cancel, abort, stop,
    nope, the state after the turn has no confirmation pending, no saved
    call and no consequence details, its transcript has gained the reply
    and the cancellation notice, and nothing reached the data layer. *)
Theorem rejected_reply_cancels_saved_call (reply page : string)
    (image : option string) (s : AgentState) (w : World) (action : ToolCall) :
  confirmation_pending s = true ->
  action_to_confirm s = Some action ->
  normalise' reply ∈ rejection_vocabulary ->
  turn' reply page image s w
  = ({| messages :=
          (messages s ++ [HumanMessage reply]) ++ [AIMessage cancelled_text []];
        currentPage := page;
        confirmation_pending := false;
        action_to_confirm := None;
        consequence_info := None;
        image_data := image_data (receive reply page image s) |},
     w).
Proof.
  intros Hpend Hact Hno.
  unfold turn, movi_agent. rewrite start_router_receive, Hpend.
  unfold handle_confirmation. rewrite last_message_receive.
  cbn [receive action_to_confirm]. rewrite Hact.
  rewrite bool_decide_eq_false_2 by now apply rejection_not_acceptance.
  rewrite bool_decide_eq_true_2 by exact Hno.
  reflexivity.
Qed.

(** C5. When the graph is given a state in which a confirmation is pending
    for a saved call and whose newest message is a reply of the user that,
    lower-cased and trimmed by [str.lower] and [str.strip] themselves,
    whatever text the reply is, is in neither vocabulary, the state it
    returns is that state with one message added, the request to answer
    yes or no:
    the flag, the saved call, the consequence details, the page, the
    attachment and the transcript so far are the same, and nothing reached
    the tools or the data layer. *)
Theorem unclear_reply_only_adds_request (s : AgentState) (w : World)
    (reply : string) (action : ToolCall) :
  confirmation_pending s = true ->
  action_to_confirm s = Some action ->
  last_message s = Some (HumanMessage reply) ->
  normalise' reply ∉ acceptance_vocabulary ->
  normalise' reply ∉ rejection_vocabulary ->
  movi_agent' s w
  = ({| messages := messages s ++ [AIMessage unclear_text []];
        currentPage := currentPage s;
        confirmation_pending := true;
        action_to_confirm := Some action;
        consequence_info := consequence_info s;
        image_data := image_data s |},
     w).
Proof.
  intros Hpend Hact Hlast Hyes Hno.
  unfold movi_agent, start_router. rewrite Hpend, Hlast.
  unfold handle_confirmation. rewrite Hlast, Hact.
  rewrite bool_decide_eq_false_2 by exact Hyes.
  rewrite bool_decide_eq_false_2 by exact Hno.
  unfold ret, add_messages. now rewrite Hpend, Hact.
Qed.

(** *** Turns that consult the model *)

Lemma last_snoc2 (l : list Message) (m1 m2 : Message) :
  List.last (List.map Some (l ++ [m1; m2])) None = Some m2.
Proof.
  change (l ++ [m1; m2]) with (l ++ [m1] ++ [m2]).
  rewrite List.app_assoc. apply last_snoc.
Qed.

Lemma handle_confirmation_after_pause (s : AgentState) (w : World)
    (tc : ToolCall) (info : ConsequenceInfo) (warning : string) :
  handle_confirmation' (pause_for_confirmation tc info warning s) w
  = (pause_for_confirmation tc info warning s, w).
Proof.
  unfold handle_confirmation, last_message.
  cbn [pause_for_confirmation messages action_to_confirm].
  now rewrite last_snoc2.
Qed.

Lemma movi_agent_no_calls (s : AgentState) (w : World) (c : string) :
  start_router s = call_model_node ->
  proposes (call_model' s) c [] ->
  movi_agent' s w = (call_model' s, w).
Proof.
  intros Hstart Hp. unfold movi_agent. rewrite Hstart.
  unfold should_continue_after_model. now rewrite Hp.
Qed.

Lemma movi_agent_model_route (s : AgentState) (w : World) (c : string)
    (tc : ToolCall) (rest : list ToolCall) :
  start_router s = call_model_node ->
  proposes (call_model' s) c (tc :: rest) ->
  movi_agent' s w
  = match verdict str_float (db w) tc with
    | Some (info, warning) =>
        (pause_for_confirmation tc info warning (call_model' s),
         {| db := db w; trace := trace w ++ lookups tc |})
    | None =>
        call_tool' (set_confirmation_pending false (call_model' s))
          {| db := db w; trace := trace w ++ lookups tc |}
    end.
Proof.
  intros Hstart Hp. unfold movi_agent. rewrite Hstart.
  unfold should_continue_after_model. rewrite Hp. cbn [tool_calls_of].
  unfold bind. rewrite (check_consequences_verdict str_float _ w c tc rest Hp).
  destruct (verdict str_float (db w) tc) as [[info warning]|].
  - unfold should_get_confirmation.
    cbn [pause_for_confirmation confirmation_pending].
    apply handle_confirmation_after_pause.
  - reflexivity.
Qed.

Lemma booking_percentage_in_range (d : Database) (trip_name : string) (p : Q) :
  percentages_in_range d ->
  trip_booking_percentage d trip_name = Some p ->
  (0 <= p)%Q.
Proof.
  unfold percentages_in_range, trip_booking_percentage, db_utils.first_by.
  intros Hr Hp.
  destruct (find _ (daily_trips d)) as [t|] eqn:E; [|discriminate].
  injection Hp as <-. apply List.find_some in E as [Hin _].
  rewrite List.Forall_forall in Hr. now apply Hr in Hin.
Qed.

Lemma nonzero_subject_at_risk (d : Database) (tc : ToolCall) :
  percentages_in_range d -> nonzero_subject d tc -> at_risk d tc.
Proof.
  intros Hr [p Hname Hp Hnz|n Hname Hn Hnz].
  - assert (Hpos : (0 < p)%Q).
    { pose proof (booking_percentage_in_range d _ p Hr Hp) as Hle.
      apply Qle_lt_or_eq in Hle as [Hlt|Heq]; [exact Hlt|].
      exfalso. apply Hnz. now symmetry. }
    destruct Hname as [Hname|Hname].
    + now apply risk_vehicle_removal with p.
    + now apply risk_trip_deletion with p.
  - apply risk_route_deactivation with n; [assumption..|lia].
Qed.

Lemma at_risk_nonzero_subject (d : Database) (tc : ToolCall) :
  at_risk d tc -> nonzero_subject d tc.
Proof.
  intros [p Hname Hp Hpos|p Hname Hp Hpos|n Hname Hn Hpos].
  - apply nonzero_bookings with p; [now left|exact Hp|].
    intros Heq. rewrite Heq in Hpos. exact (Qlt_irrefl _ Hpos).
  - apply nonzero_bookings with p; [now right|exact Hp|].
    intros Heq. rewrite Heq in Hpos. exact (Qlt_irrefl _ Hpos).
  - apply nonzero_trips with n; [assumption..|lia].
Qed.

(** C1. In a turn that consults the model, when the first call the model
    proposes is [remove_vehicle_from_trip] or [delete_daily_trip] for a trip
    with a nonzero booking percentage, or [deactivate_route] for a route
    with a nonzero number of trips, the state after the turn has the
    confirmation pending, that call saved as the action to confirm and the
    consequence details recorded; no tool ran in the turn: the database is
    the same and all that reached the data layer are lookups. *)
Theorem risky_first_call_pauses_turn (s : AgentState) (w : World)
    (c : string) (tc : ToolCall) (rest : list ToolCall) :
  start_router s = call_model_node ->
  proposes (call_model' s) c (tc :: rest) ->
  percentages_in_range (db w) ->
  nonzero_subject (db w) tc ->
  exists info warning reads,
    movi_agent' s w
    = ({| messages :=
            messages (call_model' s)
            ++ [pause_message tc; AIMessage warning []];
          currentPage := currentPage (call_model' s);
          confirmation_pending := true;
          action_to_confirm := Some tc;
          consequence_info := Some info;
          image_data := image_data (call_model' s) |},
       {| db := db w; trace := trace w ++ reads |})
    /\ Forall is_query reads.
Proof.
  intros Hstart Hp Hr Hnz.
  rewrite (movi_agent_model_route s w c tc rest Hstart Hp).
  pose proof (nonzero_subject_at_risk _ _ Hr Hnz) as Hrisk.
  apply (verdict_at_risk str_float) in Hrisk as [[info warning] ->].
  exists info, warning, (lookups tc). split; [reflexivity|].
  apply lookups_are_queries.
Qed.

(** C2. In a turn that consults the model, when the first call the model
    proposes is anything but a guarded call on a subject with nonzero
    bookings or trips (so: another action, or a guarded one whose subject
    has none, or is unknown), every call the model proposed is executed in
    that turn, in order: the first on the database of the turn, each on the
    database its predecessor left, and the database after the turn is the
    one the last call left.  Each call is answered by one tool message,
    which carries the formatted result of its operation, or its error;
    each one whose name is registered is invoked with its arguments, those
    invocations being all that follows the lookups of the check, and the
    state after the turn has no confirmation pending. *)
Theorem safe_first_call_executes_every_call (s : AgentState) (w : World)
    (c : string) (tc : ToolCall) (rest : list ToolCall) :
  start_router s = call_model_node ->
  proposes (call_model' s) c (tc :: rest) ->
  ~ nonzero_subject (db w) tc ->
  exists tool_messages reads d',
    movi_agent' s w
    = ({| messages := messages (call_model' s) ++ tool_messages;
          currentPage := currentPage (call_model' s);
          confirmation_pending := false;
          action_to_confirm := action_to_confirm (call_model' s);
          consequence_info := consequence_info (call_model' s);
          image_data := image_data (call_model' s) |},
       {| db := d';
          trace := (trace w ++ reads) ++ invocations (tc :: rest) |})
    /\ executed (db w) (tc :: rest) tool_messages d'
    /\ Forall2 answers (tc :: rest) tool_messages
    /\ Forall is_query reads.
Proof.
  intros Hstart Hp Hsafe.
  rewrite (movi_agent_model_route s w c tc rest Hstart Hp).
  destruct (verdict str_float (db w) tc) as [[info warning]|] eqn:E.
  { exfalso. apply Hsafe, at_risk_nonzero_subject.
    apply (verdict_at_risk str_float). rewrite E. eauto. }
  rewrite (call_tool_proposed _ _ c tc rest) by exact Hp.
  pose proof (for_each_execute (tc :: rest)
                {| db := db w; trace := trace w ++ lookups tc |}) as [Hf Ht].
  pose proof (for_each_executed (tc :: rest)
                {| db := db w; trace := trace w ++ lookups tc |}) as He.
  destruct (for_each execute_tool_call' (tc :: rest) _) as [ms [d' tr]].
  cbn [fst snd db trace] in *. subst tr.
  exists ms, (lookups tc), d'. split; [reflexivity|].
  split; [exact He|]. split; [exact Hf|apply lookups_are_queries].
Qed.

(** *** The invariant of the session state *)

Lemma turn_pending (message page : string) (image : option string)
    (s : AgentState) (w : World) :
  confirmation_pending s = true ->
  turn' message page image s w
  = handle_confirmation' (receive message page image s) w.
Proof.
  intros Hpend. unfold turn, movi_agent.
  now rewrite start_router_receive, Hpend.
Qed.

Lemma start_router_not_pending (message page : string)
    (image : option string) (s : AgentState) :
  confirmation_pending s = false ->
  start_router (receive message page image s) = call_model_node.
Proof. intros H. now rewrite start_router_receive, H. Qed.

(** C9. Every turn preserves the invariant that a confirmation is pending
    exactly when a call is saved for it; a new session satisfies it. On the
    defensive path, when a turn finds the confirmation pending and no call
    saved, it ends with the flag reset and no call saved, the rest of the
    state as it was given, nothing executed and no exception. *)
Theorem turn_preserves_confirmation_invariant (message page : string)
    (image : option string) (s : AgentState) (w : World) :
  (confirmation_invariant s ->
   confirmation_invariant (fst (turn' message page image s w)))
  /\ confirmation_invariant (new_state page)
  /\ (confirmation_pending s = true ->
      action_to_confirm s = None ->
      turn' message page image s w
      = ({| messages := messages s ++ [HumanMessage message];
            currentPage := page;
            confirmation_pending := false;
            action_to_confirm := None;
            consequence_info := consequence_info s;
            image_data := image_data (receive message page image s) |},
         w)).
Proof.
  assert (Hnone : forall s0 : AgentState,
             confirmation_pending s0 = false ->
             action_to_confirm s0 = None ->
             confirmation_invariant s0).
  { intros s0 H1 H2. unfold confirmation_invariant. rewrite H1, H2.
    split; [discriminate|]. intros [? [=]]. }
  assert (Hsome : forall (s0 : AgentState) a,
             confirmation_pending s0 = true ->
             action_to_confirm s0 = Some a ->
             confirmation_invariant s0).
  { intros s0 a H1 H2. unfold confirmation_invariant. rewrite H1, H2.
    split; eauto. }
  split; [|split].
  - intros Hinv. destruct (confirmation_pending s) eqn:Hpend.
    + destruct (proj1 Hinv Hpend) as [action Hact].
      rewrite turn_pending by exact Hpend.
      unfold handle_confirmation. rewrite last_message_receive.
      cbn [receive action_to_confirm]. rewrite Hact.
      repeat case_bool_decide.
      * unfold bind. destruct (execute_confirmed' action w) as [ms w'].
        now apply Hnone.
      * now apply Hnone.
      * apply Hsome with action; simpl; assumption.
    + assert (Hact : action_to_confirm s = None).
      { destruct (action_to_confirm s) eqn:E; [|reflexivity].
        assert (Hs : is_Some (action_to_confirm s)) by (rewrite E; eauto).
        apply Hinv in Hs. congruence. }
      pose proof (start_router_not_pending message page image s Hpend)
        as Hstart.
      destruct (call_model_confirmation (receive message page image s))
        as [Hcp Hca]. cbn [receive confirmation_pending action_to_confirm]
        in Hcp, Hca.
      destruct (last_message_call_model (receive message page image s))
        as (c & [|tc rest] & Hlast); unfold turn.
      * rewrite (movi_agent_no_calls _ w c Hstart Hlast). simpl fst.
        apply Hnone; congruence.
      * rewrite (movi_agent_model_route _ w c tc rest Hstart Hlast).
        destruct (verdict str_float (db w) tc) as [[info warning]|].
        -- now apply Hsome with tc.
        -- rewrite (call_tool_proposed _ _ c tc rest) by exact Hlast.
           apply Hnone; simpl; congruence.
  - now apply Hnone.
  - intros Hpend Hact. rewrite turn_pending by exact Hpend.
    unfold handle_confirmation. rewrite last_message_receive.
    cbn [receive action_to_confirm]. now rewrite Hact.
Qed.

(** The call saved for confirmation is always one of the three guarded
    tools, hence a registered one. *)
Definition saved_call_guarded (s : AgentState) : Prop :=
  forall a, action_to_confirm s = Some a ->
            tc_name a ∈ ["remove_vehicle_from_trip"; "delete_daily_trip";
                         "deactivate_route"].

Lemma guarded_is_registered (tool_name : string) :
  tool_name ∈ ["remove_vehicle_from_trip"; "delete_daily_trip";
               "deactivate_route"] ->
  in_tool_map tool_name = true.
Proof.
  intros H. repeat (apply elem_of_cons in H as [->|H]); try reflexivity.
  now apply elem_of_nil in H.
Qed.

Lemma at_risk_guarded (d : Database) (tc : ToolCall) :
  at_risk d tc ->
  tc_name tc ∈ ["remove_vehicle_from_trip"; "delete_daily_trip";
                "deactivate_route"].
Proof.
  intros [p -> _ _|p -> _ _|n -> _ _].
  - apply elem_of_cons. now left.
  - apply elem_of_cons. right. apply elem_of_cons. now left.
  - do 2 (apply elem_of_cons; right). apply elem_of_cons. now left.
Qed.

Lemma turn_keeps_saved_call_guarded (message page : string)
    (image : option string) (s : AgentState) (w : World) :
  saved_call_guarded s ->
  saved_call_guarded (fst (turn' message page image s w)).
Proof.
  intros Hg. unfold turn, movi_agent. rewrite start_router_receive.
  destruct (confirmation_pending s) eqn:Hpend.
  - unfold handle_confirmation. rewrite last_message_receive.
    cbn [receive action_to_confirm].
    destruct (action_to_confirm s) as [action|] eqn:Hact;
      [|intros a [=]].
    repeat case_bool_decide.
    + unfold bind. destruct (execute_confirmed' action w) as [ms w'].
      intros a [=].
    + intros a [=].
    + intros a Ha. apply Hg. simpl in Ha. congruence.
  - destruct (call_model_confirmation (receive message page image s))
      as [_ Hca]. cbn [receive action_to_confirm] in Hca.
    unfold should_continue_after_model.
    destruct (last_message_call_model (receive message page image s))
      as (c & [|tc rest] & Hlast); rewrite Hlast; cbn [tool_calls_of].
    + intros a Ha. apply Hg. simpl in Ha. congruence.
    + unfold bind.
      rewrite (check_consequences_verdict str_float _ w c tc rest Hlast).
      destruct (verdict str_float (db w) tc) as [[info warning]|] eqn:E.
      * unfold should_get_confirmation.
        cbn [pause_for_confirmation confirmation_pending].
        rewrite handle_confirmation_after_pause. intros a [= <-].
        apply at_risk_guarded with (db w).
        apply (verdict_at_risk str_float). rewrite E. eauto.
      * unfold should_get_confirmation.
        cbn [set_confirmation_pending confirmation_pending].
        rewrite (call_tool_proposed _ _ c tc rest) by exact Hlast.
        intros a Ha. apply Hg. simpl in Ha. congruence.
Qed.

End Turns.

(** ** The expiry sweep *)

Section Expiry.

Implicit Types (store : gmap string Session) (sess : Session).

Lemma is_expired_iff (now : Z) sess :
  is_expired now sess = true
  <-> last_access sess = None
      \/ exists t, last_access sess = Some t
                   /\ (inject_Z SESSION_TIMEOUT < total_seconds (now - t))%Q.
Proof.
  unfold is_expired. destruct (last_access sess) as [t|].
  - rewrite negb_true_iff. split.
    + intros H. right. exists t. split; [reflexivity|].
      apply Qnot_le_lt. intros Hle. apply Qle_bool_iff in Hle. congruence.
    + intros [[=]|(t' & [= <-] & Hlt)].
      destruct (Qle_bool _ _) eqn:E; [|reflexivity].
      apply Qle_bool_iff in E. exfalso. exact (Qlt_not_le _ _ Hlt E).
  - split; [now left|reflexivity].
Qed.

(** In microseconds: older than 3 600 000 000 of them. *)
Lemma total_seconds_timeout (delta : Z) :
  (inject_Z SESSION_TIMEOUT < total_seconds delta)%Q
  <-> (3600 * 1000000 < delta)%Z.
Proof.
  unfold Qlt, total_seconds, SESSION_TIMEOUT, inject_Z; simpl. lia.
Qed.

Lemma lookup_delete_all (sids : list string) store (sid : string) :
  List.fold_left (fun m k => delete k m) sids store !! sid
  = if bool_decide (sid ∈ sids) then None else store !! sid.
Proof.
  revert store.
  induction sids as [|k sids IH]; intros store; cbn [List.fold_left].
  - case_bool_decide as H; [now apply elem_of_nil in H|reflexivity].
  - rewrite IH. destruct (decide (sid = k)) as [->|Hne].
    + rewrite lookup_delete_eq.
      rewrite (bool_decide_eq_true_2 (k ∈ k :: sids)) by set_solver.
      now destruct (bool_decide (k ∈ sids)).
    + rewrite lookup_delete_ne by congruence.
      destruct (decide (sid ∈ sids)) as [Hin|Hnin].
      * rewrite (bool_decide_eq_true_2 (sid ∈ k :: sids))
          by (rewrite elem_of_cons; tauto).
        now rewrite bool_decide_eq_true_2.
      * rewrite (bool_decide_eq_false_2 (sid ∈ k :: sids))
          by (rewrite elem_of_cons; tauto).
        now rewrite bool_decide_eq_false_2.
Qed.

Lemma on_expired_list (now : Z) store (sid : string) :
  sid ∈ List.map fst
          (List.filter (fun kv => is_expired now (snd kv)) (map_to_list store))
  <-> exists sess, store !! sid = Some sess /\ is_expired now sess = true.
Proof.
  rewrite list_elem_of_In, List.in_map_iff. split.
  - intros ([k sess] & Hk & Hin). simpl in Hk. subst k.
    apply List.filter_In in Hin as [Hin Hexp].
    apply list_elem_of_In, elem_of_map_to_list in Hin. eauto.
  - intros (sess & Hs & Hexp). exists (sid, sess). split; [reflexivity|].
    apply List.filter_In. split; [|exact Hexp].
    now apply list_elem_of_In, elem_of_map_to_list.
Qed.

Lemma lookup_cleanup (now : Z) store (sid : string) sess :
  store !! sid = Some sess ->
  cleanup_old_sessions now store !! sid
  = if is_expired now sess then None else Some sess.
Proof.
  intros Hs. unfold cleanup_old_sessions. rewrite lookup_delete_all.
  destruct (is_expired now sess) eqn:E.
  - rewrite bool_decide_eq_true_2; [reflexivity|].
    apply on_expired_list. eauto.
  - rewrite bool_decide_eq_false_2; [exact Hs|].
    intros Hin. apply on_expired_list in Hin as (sess' & Hs' & Hexp).
    congruence.
Qed.

(** C7. The sweep removes a stored session exactly when it has no recorded
    access time, or the time since its last access, in seconds, is strictly
    more than 3600; a session last accessed at most 3600 seconds ago is
    still in the store, unchanged, after the sweep. *)
Theorem cleanup_removes_exactly_the_expired (now : Z)
    (store : gmap string Session) (sid : string) (sess : Session) :
  store !! sid = Some sess ->
  (cleanup_old_sessions now store !! sid = None
   <-> last_access sess = None
       \/ exists t, last_access sess = Some t
                    /\ (inject_Z SESSION_TIMEOUT < total_seconds (now - t))%Q)
  /\ (forall t,
        last_access sess = Some t ->
        (total_seconds (now - t) <= inject_Z SESSION_TIMEOUT)%Q ->
        cleanup_old_sessions now store !! sid = Some sess).
Proof.
  intros Hs. rewrite (lookup_cleanup now store sid sess Hs). split.
  - rewrite <- is_expired_iff. destruct (is_expired now sess); split;
      congruence.
  - intros t Ht Hle. destruct (is_expired now sess) eqn:E; [|reflexivity].
    apply is_expired_iff in E as [E|(t' & Ht' & Hlt)]; [congruence|].
    exfalso. rewrite Ht in Ht'. injection Ht' as <-.
    exact (Qlt_not_le _ _ Hlt Hle).
Qed.

Lemma cleanup_keeps_absent (now : Z) store (sid : string) :
  store !! sid = None -> cleanup_old_sessions now store !! sid = None.
Proof.
  intros Hs. unfold cleanup_old_sessions. rewrite lookup_delete_all.
  now destruct (bool_decide _).
Qed.

End Expiry.

(** * Sample runs *)

Section SampleRuns.

Local Abbreviation agent_at thm :=
  (thm true Sample.llm Sample.process_image_with_vision Sample.tool_body
     Sample.str_float Sample.format_trip_status PyStr.lower PyStr.strip).

Example normalise_trims_and_lowers :
  normalise_ascii (" YeS" +:+ nl) = "yes" /\ normalise_ascii "Y E S" = "y e s".
Proof. split; reflexivity. Qed.

Example booked_trip_pauses :
  confirmation_pending Sample.paused = true
  /\ consequence_info Sample.paused
     = Some (vehicle_removal "Bulk - 00:01" 25)
  /\ snd (Sample.turn "Remove the vehicle from Bulk - 00:01" Sample.fresh
            Sample.world)
     = {| db := Sample.database;
          trace := [Query "check_trip_has_bookings" "Bulk - 00:01"] |}.
Proof. repeat split; vm_compute; reflexivity. Qed.

Example yes_removes_the_vehicle :
  List.map dep_vehicle_id
    (deployments (db (snd (Sample.turn "yes" Sample.paused Sample.world))))
  = [None; None]
  /\ last_message (fst (Sample.turn "yes" Sample.paused Sample.world))
     = Some (AIMessage
               ("✅ Action completed" +:+ nl +:+ nl
                +:+ "✅ Removed vehicle KA-01-AB-1234 from trip 'Bulk - 00:01'")
               []).
Proof. split; vm_compute; reflexivity. Qed.

Example unbooked_trip_runs_at_once :
  let run :=
    Sample.turn "Remove the vehicle from Path Path - 00:02" Sample.fresh
      Sample.world in
  confirmation_pending (fst run) = false
  /\ List.skipn 2 (messages (fst run))
     = [ToolMessage "No vehicle assigned to trip 'Path Path - 00:02'." "call_1";
        ToolMessage "✅ Route 'South-Loop - 06:45' has been deactivated"
          "call_1";
        ToolMessage "Error: Tool 'plan_route' not found" "call_1"]
  /\ List.length (trace (snd run)) = 3%nat.
Proof. repeat split; vm_compute; reflexivity. Qed.

Example chat_endpoint_answers_with_the_warning :
  let run :=
    chat_endpoint true Sample.llm Sample.process_image_with_vision
      Sample.tool_body Sample.str_float Sample.format_trip_status
      PyStr.lower PyStr.strip
      10 20 30 "Remove the vehicle from Bulk - 00:01" "busDashboard" None ∅
      Sample.world in
  PyStr.startswith "⚠️ CONSEQUENCE WARNING" (fst (fst run)) = true
  /\ snd (fst run) !! "session_busDashboard"
     = Some {| state := Sample.paused; last_access := Some 30%Z |}.
Proof. split; vm_compute; reflexivity. Qed.

Lemma sample_percentages_in_range : percentages_in_range Sample.database.
Proof.
  unfold percentages_in_range. simpl.
  repeat constructor; simpl; unfold Qle; simpl; lia.
Qed.

Lemma sample_nonzero_subject :
  nonzero_subject Sample.database Sample.remove_booked.
Proof.
  apply nonzero_bookings with 25%Q; [now left|reflexivity|].
  intros H. discriminate H.
Qed.

Lemma sample_zero_subject :
  ~ nonzero_subject Sample.database Sample.remove_unbooked.
Proof.
  intros [p Hname Hp Hnz|n Hname Hn Hnz].
  - vm_compute in Hp. injection Hp as <-. now apply Hnz.
  - discriminate Hname.
Qed.

(** The model has just proposed to remove the vehicle of the booked trip. *)
Lemma consequence_check_flags_risk_exactly_witness :
  proposes (Sample.model (Sample.asked "Remove the vehicle from Bulk - 00:01"))
    "" [Sample.remove_booked]
  /\ at_risk Sample.database Sample.remove_booked.
Proof.
  split; [reflexivity|].
  apply (consequence_check_flags_risk_exactly Sample.str_float
           (Sample.model (Sample.asked "Remove the vehicle from Bulk - 00:01"))
           Sample.world "" Sample.remove_booked []); [reflexivity|].
  vm_compute. reflexivity.
Defined.

(** Removing the vehicle of a trip that is 25% booked pauses the turn. *)
Lemma risky_first_call_pauses_turn_witness :
  start_router (Sample.asked "Remove the vehicle from Bulk - 00:01")
  = call_model_node
  /\ percentages_in_range Sample.database
  /\ nonzero_subject Sample.database Sample.remove_booked
  /\ exists info warning reads,
       Sample.agent (Sample.asked "Remove the vehicle from Bulk - 00:01")
         Sample.world
       = ({| messages :=
               messages
                 (Sample.model
                    (Sample.asked "Remove the vehicle from Bulk - 00:01"))
               ++ [pause_message Sample.remove_booked; AIMessage warning []];
             currentPage := "busDashboard";
             confirmation_pending := true;
             action_to_confirm := Some Sample.remove_booked;
             consequence_info := Some info;
             image_data := None |},
          {| db := Sample.database; trace := [] ++ reads |})
       /\ Forall is_query reads.
Proof.
  split; [reflexivity|].
  split; [exact sample_percentages_in_range|].
  split; [exact sample_nonzero_subject|].
  exact (agent_at risky_first_call_pauses_turn
           (Sample.asked "Remove the vehicle from Bulk - 00:01") Sample.world
           "" Sample.remove_booked [] eq_refl eq_refl
           sample_percentages_in_range sample_nonzero_subject).
Defined.

(** Three calls proposed at once, the first on a trip without bookings, the
    last of a name that is not registered: all three are answered. *)
Lemma safe_first_call_executes_every_call_witness :
  proposes
    (Sample.model (Sample.asked "Remove the vehicle from Path Path - 00:02"))
    ""
    [Sample.remove_unbooked;
     Sample.call "deactivate_route" "route_name" "South-Loop - 06:45";
     Sample.call "plan_route" "city" "Bengaluru"]
  /\ ~ nonzero_subject Sample.database Sample.remove_unbooked
  /\ exists tool_messages,
       messages
         (fst (Sample.agent
                 (Sample.asked "Remove the vehicle from Path Path - 00:02")
                 Sample.world))
       = messages
           (Sample.model
              (Sample.asked "Remove the vehicle from Path Path - 00:02"))
         ++ tool_messages
       /\ length tool_messages = 3%nat.
Proof.
  split; [reflexivity|].
  split; [exact sample_zero_subject|].
  destruct (agent_at safe_first_call_executes_every_call
              (Sample.asked "Remove the vehicle from Path Path - 00:02")
              Sample.world ""
              Sample.remove_unbooked
              [Sample.call "deactivate_route" "route_name" "South-Loop - 06:45";
               Sample.call "plan_route" "city" "Bengaluru"]
              eq_refl eq_refl sample_zero_subject)
    as (tool_messages & reads & d' & Hrun & _ & Hanswers & _).
  exists tool_messages. split.
  - unfold Sample.agent. rewrite Hrun. reflexivity.
  - apply Forall2_length in Hanswers. simpl in Hanswers. congruence.
Defined.

(** The user answers "  YES " to the warning. *)
Lemma accepted_reply_executes_saved_call_witness :
  confirmation_pending Sample.paused = true
  /\ action_to_confirm Sample.paused = Some Sample.remove_booked
  /\ in_tool_map (tc_name Sample.remove_booked) = true
  /\ normalise_ascii "  YES " ∈ acceptance_vocabulary
  /\ trace (snd (Sample.turn "  YES " Sample.paused Sample.world))
     = [Invoke "remove_vehicle_from_trip" (tc_args Sample.remove_booked)].
Proof.
  assert (Hyes : normalise_ascii "  YES " ∈ acceptance_vocabulary)
    by (apply list_elem_of_In; left; reflexivity).
  repeat (split; [first [reflexivity|exact Hyes]|]).
  destruct (agent_at accepted_reply_executes_saved_call "  YES "
              "busDashboard" None Sample.paused Sample.world
              Sample.remove_booked eq_refl eq_refl eq_refl Hyes)
    as (tool_text & ack & _ & Hrun).
  unfold Sample.turn. rewrite Hrun. reflexivity.
Defined.

(** The user answers "No" to the warning. *)
Lemma rejected_reply_cancels_saved_call_witness :
  confirmation_pending Sample.paused = true
  /\ action_to_confirm Sample.paused = Some Sample.remove_booked
  /\ normalise_ascii "No" ∈ rejection_vocabulary
  /\ snd (Sample.turn "No" Sample.paused Sample.world) = Sample.world.
Proof.
  assert (Hno : normalise_ascii "No" ∈ rejection_vocabulary)
    by (apply list_elem_of_In; left; reflexivity).
  repeat (split; [first [reflexivity|exact Hno]|]).
  unfold Sample.turn.
  rewrite (agent_at rejected_reply_cancels_saved_call "No" "busDashboard"
             None Sample.paused Sample.world Sample.remove_booked
             eq_refl eq_refl Hno).
  reflexivity.
Defined.

(** The user answers "maybe later" to the warning. *)
Lemma unclear_reply_only_adds_request_witness :
  confirmation_pending
    (receive "maybe later" "busDashboard" None Sample.paused) = true
  /\ last_message (receive "maybe later" "busDashboard" None Sample.paused)
     = Some (HumanMessage "maybe later")
  /\ (normalise_ascii "maybe later" ∉ acceptance_vocabulary)
  /\ (normalise_ascii "maybe later" ∉ rejection_vocabulary)
  /\ Sample.agent (receive "maybe later" "busDashboard" None Sample.paused)
       Sample.world
     = (add_messages [AIMessage unclear_text []]
          (receive "maybe later" "busDashboard" None Sample.paused),
        Sample.world).
Proof.
  assert (Hyes : normalise_ascii "maybe later" ∉ acceptance_vocabulary).
  { intros H. apply list_elem_of_In in H. vm_compute in H.
    repeat (destruct H as [H|H]; [discriminate H|]). exact H. }
  assert (Hno : normalise_ascii "maybe later" ∉ rejection_vocabulary).
  { intros H. apply list_elem_of_In in H. vm_compute in H.
    repeat (destruct H as [H|H]; [discriminate H|]). exact H. }
  repeat (split; [first [reflexivity|exact Hyes|exact Hno]|]).
  unfold Sample.agent.
  rewrite (agent_at unclear_reply_only_adds_request
             (receive "maybe later" "busDashboard" None Sample.paused)
             Sample.world "maybe later" Sample.remove_booked
             eq_refl eq_refl eq_refl Hyes Hno).
  reflexivity.
Defined.

(** The paused session satisfies the invariant, and so does what a further
    turn makes of it. *)
Lemma turn_preserves_confirmation_invariant_witness :
  confirmation_invariant Sample.paused
  /\ confirmation_invariant
       (fst (Sample.turn "what was that?" Sample.paused Sample.world)).
Proof.
  assert (Hinv : confirmation_invariant Sample.paused).
  { split; [intros _; vm_compute; eauto|reflexivity]. }
  split; [exact Hinv|].
  exact (proj1 (agent_at turn_preserves_confirmation_invariant
                  "what was that?" "busDashboard" None Sample.paused
                  Sample.world) Hinv).
Defined.

(** A store with one session touched half an hour ago, one touched two
    hours ago and one without a timestamp, swept at time 7 200 000 000. *)
Definition sample_store : gmap string Session :=
  {[ "session_busDashboard" :=
       {| state := Sample.paused; last_access := Some 5400000000%Z |};
     "session_manageRoute" :=
       {| state := new_state "manageRoute"; last_access := Some 0%Z |};
     "session_unknown" :=
       {| state := new_state "unknown"; last_access := None |} ]}.

Lemma cleanup_removes_exactly_the_expired_witness :
  sample_store !! "session_busDashboard"
  = Some {| state := Sample.paused; last_access := Some 5400000000%Z |}
  /\ cleanup_old_sessions 7200000000 sample_store !! "session_busDashboard"
     = Some {| state := Sample.paused; last_access := Some 5400000000%Z |}.
Proof.
  split; [reflexivity|].
  apply (proj2 (cleanup_removes_exactly_the_expired 7200000000 sample_store
                  "session_busDashboard"
                  {| state := Sample.paused;
                     last_access := Some 5400000000%Z |}
                  eq_refl) 5400000000%Z eq_refl).
  vm_compute. discriminate.
Defined.

End SampleRuns.

(** * Further properties of the graph *)

Section GraphFrame.

Variable USE_LLM_MODE : bool.
Variable llm : string -> list Message -> LlmOutcome.
Variable process_image_with_vision : string -> string -> string -> string.
Variable tool_body :
  string -> gmap string string -> Database -> Outcome * Database.
Variable str_float : Q -> string.
Variable format_trip_status : string -> string.
Variable str_lower : string -> string.
Variable str_strip : string -> string.

Local Abbreviation call_model' :=
  (call_model USE_LLM_MODE llm process_image_with_vision).
Local Abbreviation execute_tool_call' :=
  (execute_tool_call tool_body format_trip_status str_lower str_strip).
Local Abbreviation call_tool' := (call_tool tool_body format_trip_status str_lower str_strip).
Local Abbreviation handle_confirmation' := (handle_confirmation tool_body str_lower str_strip).
Local Abbreviation movi_agent' :=
  (movi_agent USE_LLM_MODE llm process_image_with_vision tool_body str_float
     format_trip_status str_lower str_strip).

(** [s'] has the transcript of [s], possibly with more messages after it,
    and the same page. *)
Definition extends (s s' : AgentState) : Prop :=
  (exists new, messages s' = messages s ++ new)
  /\ currentPage s' = currentPage s.

(** From [w] to [w'] the trace only grew, and the database is the same
    unless a tool was invoked. *)
Definition changed_by_tools_only (w w' : World) : Prop :=
  exists events,
    trace w' = trace w ++ events
    /\ (Forall is_query events -> db w' = db w).

Lemma extends_same (s s' : AgentState) :
  messages s' = messages s -> currentPage s' = currentPage s -> extends s s'.
Proof.
  intros H P. split; [exists []; now rewrite app_nil_r|exact P].
Qed.

Lemma extends_refl (s : AgentState) : extends s s.
Proof. now apply extends_same. Qed.

Lemma extends_trans (s1 s2 s3 : AgentState) :
  extends s1 s2 -> extends s2 s3 -> extends s1 s3.
Proof.
  intros [[n1 H1] P1] [[n2 H2] P2]. split; [|congruence].
  exists (n1 ++ n2). now rewrite H2, H1, <- List.app_assoc.
Qed.

Lemma extends_app (s s' : AgentState) (new : list Message) :
  messages s' = messages s ++ new -> currentPage s' = currentPage s ->
  extends s s'.
Proof. intros H P. split; eauto. Qed.

Lemma tools_only_refl (w : World) : changed_by_tools_only w w.
Proof. exists []. split; [now rewrite app_nil_r|reflexivity]. Qed.

Lemma tools_only_trans (w1 w2 w3 : World) :
  changed_by_tools_only w1 w2 -> changed_by_tools_only w2 w3 ->
  changed_by_tools_only w1 w3.
Proof.
  intros (e1 & T1 & D1) (e2 & T2 & D2). exists (e1 ++ e2). split.
  - now rewrite T2, T1, <- List.app_assoc.
  - intros H. apply Forall_app in H as [H1 H2].
    rewrite D2, D1 by assumption. reflexivity.
Qed.

Lemma call_model_extends (s : AgentState) : extends s (call_model' s).
Proof.
  unfold call_model.
  destruct (image_data s) as [img|];
    [destruct (bool_decide (img = ""));
     [|destruct (bool_decide (process_image_with_vision _ _ _ = ""))]|];
    (split; [|reflexivity]); cbn [messages];
    try (eexists; reflexivity).
  eexists. rewrite <- List.app_assoc. reflexivity.
Qed.

Lemma check_consequences_extends (s : AgentState) (w : World) :
  extends s (fst (check_consequences str_float s w)).
Proof.
  unfold check_consequences.
  destruct (last_message s) as [last|]; [|apply extends_same; reflexivity].
  destruct (tool_calls_of last) as [|tc rest]; [apply extends_same; reflexivity|].
  repeat case_bool_decide; unfold bind, check_trip_has_bookings,
    check_route_has_active_trips;
    try match goal with
        | |- context [db_utils.has_bookings ?x] =>
            destruct (db_utils.has_bookings x)
        | |- context [db_utils.has_trips ?x] => destruct (db_utils.has_trips x)
        end;
    first [apply extends_same; reflexivity | eapply extends_app; reflexivity].
Qed.

Lemma check_consequences_reads_only (s : AgentState) (w : World) :
  changed_by_tools_only w (snd (check_consequences str_float s w)).
Proof.
  unfold check_consequences.
  destruct (last_message s) as [last|]; [|apply tools_only_refl].
  destruct (tool_calls_of last) as [|tc rest]; [apply tools_only_refl|].
  repeat case_bool_decide; unfold bind, check_trip_has_bookings,
    check_route_has_active_trips;
    try match goal with
        | |- context [db_utils.has_bookings ?x] =>
            destruct (db_utils.has_bookings x)
        | |- context [db_utils.has_trips ?x] => destruct (db_utils.has_trips x)
        end;
    first [apply tools_only_refl
          | eexists; split; [reflexivity|reflexivity]].
Qed.

Lemma handle_confirmation_extends (s : AgentState) (w : World) :
  extends s (fst (handle_confirmation' s w)).
Proof.
  unfold handle_confirmation.
  destruct (last_message s) as [[content|? ?|?|? ?]|];
    destruct (action_to_confirm s) as [action|];
    try (apply extends_same; reflexivity).
  repeat case_bool_decide.
  - unfold bind. destruct (execute_confirmed tool_body action w) as [ms w'].
    eapply extends_app; reflexivity.
  - eapply extends_app; reflexivity.
  - eapply extends_app; reflexivity.
Qed.

Lemma handle_confirmation_tools_only (s : AgentState) (w : World) :
  changed_by_tools_only w (snd (handle_confirmation' s w)).
Proof.
  unfold handle_confirmation.
  destruct (last_message s) as [[content|? ?|?|? ?]|];
    destruct (action_to_confirm s) as [action|];
    try apply tools_only_refl.
  repeat case_bool_decide; try apply tools_only_refl.
  unfold bind, execute_confirmed.
  destruct (in_tool_map (tc_name action)); [|apply tools_only_refl].
  unfold bind, invoke.
  destruct (tool_body _ _ _) as [[out|e] d']; cbn [snd fst ret];
    (exists [Invoke (tc_name action) (tc_args action)];
     split; [reflexivity|];
     intros Hq; apply Forall_cons in Hq as [[] _]).
Qed.

Lemma for_each_tools_only (tcs : list ToolCall) (w : World) :
  changed_by_tools_only w (snd (for_each execute_tool_call' tcs w)).
Proof.
  revert w. induction tcs as [|tc tcs IH]; intros w; simpl.
  - apply tools_only_refl.
  - unfold bind.
    assert (H1 : changed_by_tools_only w (snd (execute_tool_call' tc w))).
    { unfold execute_tool_call.
      destruct (in_tool_map (tc_name tc)); [|apply tools_only_refl].
      unfold bind, invoke.
      destruct (tool_body _ _ _) as [[out|e] d']; cbn [snd fst ret];
        (exists [Invoke (tc_name tc) (tc_args tc)];
         split; [reflexivity|];
         intros Hq; apply Forall_cons in Hq as [[] _]). }
    destruct (execute_tool_call' tc w) as [m w1]. cbn [snd] in H1.
    specialize (IH w1).
    destruct (for_each execute_tool_call' tcs w1) as [ms w2]. cbn [snd] in *.
    now apply tools_only_trans with w1.
Qed.

Lemma call_tool_extends (s : AgentState) (w : World) :
  extends s (fst (call_tool' s w)).
Proof.
  unfold call_tool.
  destruct (last_message s) as [last|]; [|apply extends_same; reflexivity].
  destruct (tool_calls_of last) as [|tc rest]; [apply extends_same; reflexivity|].
  unfold bind.
  destruct (for_each execute_tool_call' (tc :: rest) w) as [ms w'].
  eapply extends_app; reflexivity.
Qed.

Lemma call_tool_tools_only (s : AgentState) (w : World) :
  changed_by_tools_only w (snd (call_tool' s w)).
Proof.
  unfold call_tool.
  destruct (last_message s) as [last|]; [|apply tools_only_refl].
  destruct (tool_calls_of last) as [|tc rest]; [apply tools_only_refl|].
  unfold bind.
  pose proof (for_each_tools_only (tc :: rest) w) as H.
  now destruct (for_each execute_tool_call' (tc :: rest) w) as [ms w'].
Qed.

(** X1. Whatever the model and the tools do, a run of the graph never drops
    or rewrites a message it was given and never changes the page: the
    transcript it returns is the one it received with the new messages
    after it. *)
Theorem movi_agent_only_appends (s : AgentState) (w : World) :
  (exists new,
     messages (fst (movi_agent' s w)) = messages s ++ new)
  /\ currentPage (fst (movi_agent' s w)) = currentPage s.
Proof.
  change (extends s (fst (movi_agent' s w))).
  unfold movi_agent.
  destruct (start_router s);
    try apply handle_confirmation_extends;
    (destruct (should_continue_after_model (call_model' s));
     try (apply call_model_extends);
     unfold bind;
     pose proof (check_consequences_extends (call_model' s) w) as Hc;
     destruct (check_consequences str_float (call_model' s) w) as [s2 w2];
     cbn [fst] in Hc;
     apply extends_trans with (call_model' s); [apply call_model_extends|];
     apply extends_trans with s2; [exact Hc|];
     destruct (should_get_confirmation s2);
     first [apply handle_confirmation_extends | apply call_tool_extends]).
Qed.

(** X2. A run of the graph changes the database through tool invocations
    only: the trace it leaves is the one it found with the new events
    after it, and when none of the new events is an invocation the
    database is the one it found. *)
Theorem movi_agent_changes_data_by_tools_only (s : AgentState) (w : World) :
  exists events,
    trace (snd (movi_agent' s w)) = trace w ++ events
    /\ (Forall is_query events -> db (snd (movi_agent' s w)) = db w).
Proof.
  change (changed_by_tools_only w (snd (movi_agent' s w))).
  unfold movi_agent.
  destruct (start_router s);
    try apply handle_confirmation_tools_only;
    (destruct (should_continue_after_model (call_model' s));
     try (apply tools_only_refl);
     unfold bind;
     pose proof (check_consequences_reads_only (call_model' s) w) as Hc;
     destruct (check_consequences str_float (call_model' s) w) as [s2 w2];
     cbn [snd] in Hc;
     apply tools_only_trans with w2; [exact Hc|];
     destruct (should_get_confirmation s2);
     first [apply handle_confirmation_tools_only | apply call_tool_tools_only]).
Qed.

(** X3. When no API key is configured, or the model cannot be reached, a
    turn that consults the model ends with the fixed fallback reply and
    nothing else: no call is proposed, the data layer is not touched and
    the confirmation fields are as they were. *)
Theorem model_failure_ends_turn_with_fallback (s : AgentState) (w : World) :
  start_router s = call_model_node ->
  USE_LLM_MODE = false
  \/ (forall page transcript, llm page transcript = LlmError) ->
  movi_agent' s w = (call_model' s, w)
  /\ last_message (call_model' s)
     = Some (AIMessage
               (if USE_LLM_MODE then llm_fallback
                else demo_fallback (currentPage s)) [])
  /\ confirmation_pending (call_model' s) = confirmation_pending s
  /\ action_to_confirm (call_model' s) = action_to_confirm s
  /\ consequence_info (call_model' s) = consequence_info s.
Proof.
  intros Hstart Hdown.
  assert (Hlast : last_message (call_model' s)
                  = Some (AIMessage
                            (if USE_LLM_MODE then llm_fallback
                             else demo_fallback (currentPage s)) [])).
  { unfold call_model, last_message.
    destruct (image_data s) as [img|];
      [destruct (bool_decide (img = ""))|]; cbn [messages];
      rewrite last_snoc;
      (destruct Hdown as [-> | Hdown];
       [reflexivity
       |destruct USE_LLM_MODE; [now rewrite Hdown|reflexivity]]). }
  split.
  - unfold movi_agent. rewrite Hstart.
    unfold should_continue_after_model. now rewrite Hlast.
  - split; [exact Hlast|].
    unfold call_model.
    destruct (image_data s) as [img|];
      [destruct (bool_decide (img = ""))|]; repeat split.
Qed.

End GraphFrame.

(** * Further properties of the data operations *)

Section DataOperations.

Import db_utils.

Lemma deactivate_first_absent (route_name : string) (rs : list Route) :
  first_by route_display_name route_name rs = None ->
  deactivate_first route_name rs = rs.
Proof.
  unfold first_by. induction rs as [|r rs IH]; simpl; [reflexivity|].
  destruct (bool_decide (route_display_name r = route_name));
    [discriminate|]. intros H. now rewrite IH.
Qed.

Lemma first_by_deactivate_first_other (route_name other : string)
    (rs : list Route) :
  other <> route_name ->
  first_by route_display_name other (deactivate_first route_name rs)
  = first_by route_display_name other rs.
Proof.
  intros Hne. unfold first_by. induction rs as [|r rs IH]; simpl;
    [reflexivity|].
  destruct (bool_decide (route_display_name r = route_name)) eqn:E; simpl.
  - apply bool_decide_eq_true_1 in E.
    rewrite !bool_decide_eq_false_2 by congruence. reflexivity.
  - now rewrite IH.
Qed.

Lemma route_id_first_by_deactivate_first (route_name n : string)
    (rs : list Route) :
  route_id <$> first_by route_display_name n (deactivate_first route_name rs)
  = route_id <$> first_by route_display_name n rs.
Proof.
  destruct (decide (n = route_name)) as [->|Hne].
  - destruct (first_by route_display_name route_name rs) as [r|] eqn:E.
    + now rewrite (first_by_deactivate_first route_name rs r E).
    + now rewrite deactivate_first_absent, E.
  - now rewrite first_by_deactivate_first_other.
Qed.

Lemma deactivate_route_database (d : Database) (route_name : string) :
  snd (deactivate_route d route_name) = d
  \/ snd (deactivate_route d route_name)
     = with_routes d (deactivate_first route_name (routes d)).
Proof.
  unfold deactivate_route.
  destruct (first_by route_display_name route_name (routes d)) as [r|];
    [destruct (bool_decide (status r = "deactivated"))|]; simpl; auto.
Qed.

Lemma deactivate_first_split (route_name : string) (rs : list Route)
    (r : Route) :
  first_by route_display_name route_name rs = Some r ->
  exists before after,
    rs = before ++ r :: after
    /\ Forall (fun x => route_display_name x <> route_name) before
    /\ deactivate_first route_name rs
       = before ++ set_status "deactivated" r :: after.
Proof.
  unfold first_by. induction rs as [|x rs IH]; simpl; [discriminate|].
  destruct (bool_decide (route_display_name x = route_name)) eqn:E.
  - intros [= ->]. exists [], rs. repeat split. constructor.
  - intros Hfind. destruct (IH Hfind) as (before & after & -> & Hb & ->).
    exists (x :: before), after. repeat split.
    constructor; [|exact Hb]. now apply bool_decide_eq_false_1 in E.
Qed.

(** X4. Deactivating a route changes nothing but the status of that one
    route.  When no route has the name, the table of routes is the same;
    otherwise the first row of that name, and no other row, is rewritten,
    with every column but the status as it was and the status
    "deactivated", all rows before and after it, those of the same name
    included, staying in place.  Vehicles, trips and deployments are the
    same, every route of another name is found as before, and both
    consequence lookups answer as before; in particular the trips of the
    deactivated route are still counted. *)
Theorem deactivate_route_changes_one_status (d : Database)
    (route_name : string) :
  match first_by route_display_name route_name (routes d) with
  | None => routes (snd (deactivate_route d route_name)) = routes d
  | Some r =>
      exists before after,
        routes d = before ++ r :: after
        /\ Forall (fun x => route_display_name x <> route_name) before
        /\ routes (snd (deactivate_route d route_name))
           = before
             ++ {| route_id := route_id r;
                   path_id := path_id r;
                   route_display_name := route_display_name r;
                   shift_time := shift_time r;
                   direction := direction r;
                   start_point := start_point r;
                   end_point := end_point r;
                   status := "deactivated" |} :: after
  end
  /\ vehicles (snd (deactivate_route d route_name)) = vehicles d
  /\ daily_trips (snd (deactivate_route d route_name)) = daily_trips d
  /\ deployments (snd (deactivate_route d route_name)) = deployments d
  /\ (forall other,
        other <> route_name ->
        first_by route_display_name other
          (routes (snd (deactivate_route d route_name)))
        = first_by route_display_name other (routes d))
  /\ (forall n,
        check_route_has_active_trips (snd (deactivate_route d route_name)) n
        = check_route_has_active_trips d n)
  /\ (forall n,
        check_trip_has_bookings (snd (deactivate_route d route_name)) n
        = check_trip_has_bookings d n).
Proof.
  split.
  { unfold deactivate_route.
    destruct (first_by route_display_name route_name (routes d)) as [r|] eqn:E;
      [|reflexivity].
    destruct (deactivate_first_split route_name (routes d) r E)
      as (before & after & Hrows & Hbefore & Hnew).
    exists before, after. split; [exact Hrows|]. split; [exact Hbefore|].
    destruct (bool_decide (status r = "deactivated")) eqn:Es; cbn [snd].
    - apply bool_decide_eq_true_1 in Es. rewrite Hrows.
      destruct r; simpl in *; now subst.
    - cbn [with_routes routes]. exact Hnew. }
  destruct (deactivate_route_database d route_name) as [-> | ->];
    [repeat split; reflexivity|].
  repeat split.
  - intros other Hne. simpl. now apply first_by_deactivate_first_other.
  - intros n. unfold check_route_has_active_trips. simpl.
    pose proof (route_id_first_by_deactivate_first route_name n (routes d))
      as Hid.
    destruct (first_by route_display_name n
                (deactivate_first route_name (routes d))) as [r'|];
      destruct (first_by route_display_name n (routes d)) as [r|];
      simpl in Hid; try discriminate; [|reflexivity].
    injection Hid as ->. reflexivity.
Qed.

Lemma first_by_clear_first_vehicle (tid : Z) (ds : list Deployment) :
  first_by dep_trip_id tid (clear_first_vehicle tid ds)
  = clear_vehicle <$> first_by dep_trip_id tid ds.
Proof.
  unfold first_by. induction ds as [|dp ds IH]; simpl; [reflexivity|].
  destruct (bool_decide (dep_trip_id dp = tid)) eqn:E; simpl.
  - now rewrite E.
  - now rewrite E, IH.
Qed.

Lemma drivers_clear_first_vehicle (tid : Z) (ds : list Deployment) :
  List.map dep_driver_id (clear_first_vehicle tid ds)
  = List.map dep_driver_id ds.
Proof.
  induction ds as [|dp ds IH]; simpl; [reflexivity|].
  destruct (bool_decide (dep_trip_id dp = tid)); simpl; [reflexivity|].
  now rewrite IH.
Qed.

Lemma delete_vehicle_database (d : Database) (trip_name : string)
    (trip : DailyTrip) :
  first_by display_name trip_name (daily_trips d) = Some trip ->
  snd (delete_vehicle_from_trip d trip_name) = d
  /\ assigned_vehicle (first_by dep_trip_id (trip_id trip) (deployments d))
     = None
  \/ snd (delete_vehicle_from_trip d trip_name)
     = with_deployments d (clear_first_vehicle (trip_id trip) (deployments d)).
Proof.
  intros Ht. unfold delete_vehicle_from_trip. rewrite Ht.
  destruct (assigned_vehicle _) as [v|]; simpl; auto.
Qed.

Lemma assigned_vehicle_cleared (dp : option Deployment) :
  assigned_vehicle (clear_vehicle <$> dp) = None.
Proof. now destruct dp. Qed.

(** X5. Removing the vehicle of an existing trip a second time answers
    that no vehicle is assigned and changes nothing. A removal keeps the
    drivers of all deployments, the routes, the vehicles and the trips
    with their booking percentages: the booking lookup answers as before. *)
Theorem delete_vehicle_from_trip_idempotent (d : Database)
    (trip_name : string) (trip : DailyTrip) :
  first_by display_name trip_name (daily_trips d) = Some trip ->
  delete_vehicle_from_trip (snd (delete_vehicle_from_trip d trip_name))
    trip_name
  = ("No vehicle assigned to trip '" +:+ trip_name +:+ "'.",
     snd (delete_vehicle_from_trip d trip_name))
  /\ List.map dep_driver_id
       (deployments (snd (delete_vehicle_from_trip d trip_name)))
     = List.map dep_driver_id (deployments d)
  /\ routes (snd (delete_vehicle_from_trip d trip_name)) = routes d
  /\ vehicles (snd (delete_vehicle_from_trip d trip_name)) = vehicles d
  /\ daily_trips (snd (delete_vehicle_from_trip d trip_name)) = daily_trips d
  /\ (forall n,
        check_trip_has_bookings (snd (delete_vehicle_from_trip d trip_name)) n
        = check_trip_has_bookings d n).
Proof.
  intros Ht.
  destruct (delete_vehicle_database d trip_name trip Ht) as [[-> Hnone] | ->].
  - repeat split. unfold delete_vehicle_from_trip. now rewrite Ht, Hnone.
  - repeat split.
    + unfold delete_vehicle_from_trip at 1. simpl. rewrite Ht.
      rewrite first_by_clear_first_vehicle, assigned_vehicle_cleared.
      reflexivity.
    + simpl. apply drivers_clear_first_vehicle.
Qed.

(** *** Creating and deleting trips *)

Lemma find_snoc {A : Type} (f : A -> bool) (l : list A) (x : A) :
  List.find f (l ++ [x])
  = match List.find f l with
    | Some y => Some y
    | None => if f x then Some x else None
    end.
Proof.
  induction l as [|a l IH]; simpl; [reflexivity|].
  destruct (f a); [reflexivity|exact IH].
Qed.

Lemma valid_percentage_iff (p : Q) :
  valid_percentage p = true <-> (0 <= p /\ p <= 100)%Q.
Proof.
  unfold valid_percentage. rewrite andb_true_iff, !Qle_bool_iff. reflexivity.
Qed.

(** The request passes the three checks of [create_daily_trip]. *)
Definition creatable (d : Database) (route_name trip_display_name : string)
    (p : Q) (route : Route) : Prop :=
  first_by route_display_name route_name (routes d) = Some route
  /\ first_by display_name trip_display_name (daily_trips d) = None
  /\ (0 <= p /\ p <= 100)%Q.

Lemma create_daily_trip_created (tid did : Z) (d : Database)
    (route_name name : string) (p : Q) (live : string) (route : Route) :
  creatable d route_name name p route ->
  snd (create_daily_trip tid did d route_name name p live)
  = with_trips d
      (daily_trips d
       ++ [{| trip_id := tid; trip_route_id := route_id route;
              display_name := name; booking_status_percentage := p;
              live_status := live |}])
      (deployments d
       ++ [{| deployment_id := did; dep_trip_id := tid;
              dep_vehicle_id := None; dep_driver_id := None |}]).
Proof.
  intros (Hr & Ht & Hp). unfold create_daily_trip. rewrite Hr, Ht.
  apply valid_percentage_iff in Hp. now rewrite Hp.
Qed.

Lemma create_daily_trip_database (tid did : Z) (d : Database)
    (route_name name : string) (p : Q) (live : string) :
  snd (create_daily_trip tid did d route_name name p live) = d
  \/ exists route, creatable d route_name name p route.
Proof.
  unfold create_daily_trip, creatable.
  destruct (first_by route_display_name route_name (routes d)) as [route|];
    [|now left].
  destruct (first_by display_name name (daily_trips d)) as [t|]; [now left|].
  destruct (valid_percentage p) eqn:E; [|now left].
  right. exists route. apply valid_percentage_iff in E. auto.
Qed.

(** X6. After a trip was created, the booking lookup for its name answers
    with the percentage it was created with, the route it was created for
    counts one trip more, and the lookup for every other name answers as
    before. *)
Theorem create_daily_trip_then_lookup (tid did : Z) (d : Database)
    (route_name name : string) (p : Q) (live : string) (route : Route) :
  creatable d route_name name p route ->
  check_trip_has_bookings
    (snd (create_daily_trip tid did d route_name name p live)) name
  = {| has_bookings := positive p; percentage := p |}
  /\ count (check_route_has_active_trips
              (snd (create_daily_trip tid did d route_name name p live))
              route_name)
     = S (count (check_route_has_active_trips d route_name))
  /\ (forall other,
        other <> name ->
        check_trip_has_bookings
          (snd (create_daily_trip tid did d route_name name p live)) other
        = check_trip_has_bookings d other).
Proof.
  intros Hc. rewrite (create_daily_trip_created tid did d _ _ _ live route Hc).
  destruct Hc as (Hr & Ht & Hp).
  unfold check_trip_has_bookings, check_route_has_active_trips, first_by,
    all_by in *.
  cbn [with_trips daily_trips routes]. repeat split.
  - rewrite find_snoc, Ht. cbn [display_name].
    now rewrite bool_decide_eq_true_2.
  - rewrite Hr. cbn [count]. rewrite List.filter_app, List.length_app.
    cbn [List.filter trip_route_id].
    rewrite bool_decide_eq_true_2 by reflexivity. simpl. lia.
  - intros other Hne. rewrite find_snoc. cbn [display_name].
    rewrite (bool_decide_eq_false_2 (name = other)) by congruence.
    now destruct
      (List.find (fun r => bool_decide (display_name r = other)) (daily_trips d)).
Qed.

Lemma first_by_remove_first_trip_other (trip_name other : string)
    (ts : list DailyTrip) :
  other <> trip_name ->
  first_by display_name other (remove_first_trip trip_name ts)
  = first_by display_name other ts.
Proof.
  intros Hne. unfold first_by. induction ts as [|t ts IH]; simpl;
    [reflexivity|].
  destruct (bool_decide (display_name t = trip_name)) eqn:E; simpl.
  - apply bool_decide_eq_true_1 in E.
    rewrite bool_decide_eq_false_2 by congruence. reflexivity.
  - now rewrite IH.
Qed.

Lemma first_by_absent (trip_name : string) (ts : list DailyTrip) :
  trip_name ∉ List.map display_name ts ->
  first_by display_name trip_name ts = None.
Proof.
  unfold first_by. induction ts as [|t ts IH]; simpl; [reflexivity|].
  intros Hn. apply not_elem_of_cons in Hn as [Hne Hn].
  rewrite bool_decide_eq_false_2 by congruence. now apply IH.
Qed.

Lemma first_by_remove_first_trip (trip_name : string) (ts : list DailyTrip) :
  NoDup (List.map display_name ts) ->
  first_by display_name trip_name (remove_first_trip trip_name ts) = None.
Proof.
  induction ts as [|t ts IH]; simpl; [reflexivity|].
  intros Hnd. apply NoDup_cons in Hnd as [Hnotin Hnd].
  destruct (bool_decide (display_name t = trip_name)) eqn:E.
  - apply bool_decide_eq_true_1 in E. subst trip_name.
    now apply first_by_absent.
  - unfold first_by in *. simpl. rewrite E. now apply IH.
Qed.

Lemma remove_first_trip_sublist (trip_name : string) (ts : list DailyTrip)
    (P : DailyTrip -> Prop) :
  Forall P ts -> Forall P (remove_first_trip trip_name ts).
Proof.
  induction 1 as [|t ts Ht Hts IH]; simpl; [constructor|].
  destruct (bool_decide (display_name t = trip_name)); [exact Hts|].
  now constructor.
Qed.

Lemma delete_daily_trip_found (str_float : Q -> string) (d : Database)
    (trip_name : string) (trip : DailyTrip) :
  first_by display_name trip_name (daily_trips d) = Some trip ->
  snd (delete_daily_trip str_float d trip_name)
  = with_trips d (remove_first_trip trip_name (daily_trips d))
      (List.filter
         (fun dp => negb (bool_decide (dep_trip_id dp = trip_id trip)))
         (deployments d)).
Proof. intros Ht. unfold delete_daily_trip. now rewrite Ht. Qed.

(** X7. Deleting an existing trip, when trip names are distinct, leaves no
    trip of that name and no deployment that references the deleted trip:
    the booking lookup then answers "no bookings, 0", a second deletion
    answers "not found" and changes nothing, and trips of other names,
    routes and vehicles are as before. *)
Theorem delete_daily_trip_removes_trip (str_float : Q -> string)
    (d : Database) (trip_name : string) (trip : DailyTrip) :
  first_by display_name trip_name (daily_trips d) = Some trip ->
  NoDup (List.map display_name (daily_trips d)) ->
  check_trip_has_bookings (snd (delete_daily_trip str_float d trip_name))
    trip_name
  = {| has_bookings := false; percentage := 0 |}
  /\ delete_daily_trip str_float
       (snd (delete_daily_trip str_float d trip_name)) trip_name
     = ("❌ Trip '" +:+ trip_name +:+ "' not found.",
        snd (delete_daily_trip str_float d trip_name))
  /\ all_by dep_trip_id (trip_id trip)
       (deployments (snd (delete_daily_trip str_float d trip_name))) = []
  /\ (forall other,
        other <> trip_name ->
        first_by display_name other
          (daily_trips (snd (delete_daily_trip str_float d trip_name)))
        = first_by display_name other (daily_trips d))
  /\ routes (snd (delete_daily_trip str_float d trip_name)) = routes d
  /\ vehicles (snd (delete_daily_trip str_float d trip_name)) = vehicles d.
Proof.
  intros Ht Hnd. rewrite (delete_daily_trip_found str_float d _ trip Ht).
  pose proof (first_by_remove_first_trip trip_name (daily_trips d) Hnd) as Hgone.
  repeat split.
  - unfold check_trip_has_bookings. cbn [with_trips daily_trips].
    now rewrite Hgone.
  - unfold delete_daily_trip. cbn [with_trips daily_trips].
    now rewrite Hgone.
  - cbn [with_trips deployments]. unfold all_by.
    induction (deployments d) as [|dp ds IH]; simpl; [reflexivity|].
    destruct (bool_decide (dep_trip_id dp = trip_id trip)) eqn:E; simpl;
      [exact IH|]. now rewrite E.
  - intros other Hne. cbn [with_trips daily_trips].
    now apply first_by_remove_first_trip_other.
Qed.

Lemma remove_first_trip_snoc (name : string) (ts : list DailyTrip)
    (t : DailyTrip) :
  first_by display_name name ts = None ->
  display_name t = name ->
  remove_first_trip name (ts ++ [t]) = ts.
Proof.
  unfold first_by. intros Hn Ht. induction ts as [|a ts IH]; simpl in *.
  - now rewrite bool_decide_eq_true_2.
  - destruct (bool_decide (display_name a = name)); [discriminate|].
    now rewrite IH.
Qed.

Lemma filter_out_snoc (tid : Z) (ds : list Deployment) (dp : Deployment) :
  Forall (fun x => dep_trip_id x <> tid) ds ->
  dep_trip_id dp = tid ->
  List.filter (fun x => negb (bool_decide (dep_trip_id x = tid))) (ds ++ [dp])
  = ds.
Proof.
  intros Hf Hd. rewrite List.filter_app. simpl.
  rewrite bool_decide_eq_true_2 by exact Hd. simpl. rewrite app_nil_r.
  induction Hf as [|x ds Hx Hds IH]; simpl; [reflexivity|].
  rewrite bool_decide_eq_false_2 by exact Hx. simpl. now rewrite IH.
Qed.

(** X8. Creating a trip and then deleting it by its name gives back the
    database as it was, provided the key the new trip received is one that
    no deployment referenced. *)
Theorem create_then_delete_daily_trip (str_float : Q -> string)
    (tid did : Z) (d : Database) (route_name name : string) (p : Q)
    (live : string) (route : Route) :
  creatable d route_name name p route ->
  Forall (fun dp => dep_trip_id dp <> tid) (deployments d) ->
  snd (delete_daily_trip str_float
         (snd (create_daily_trip tid did d route_name name p live)) name)
  = d.
Proof.
  intros Hc Hfresh.
  rewrite (create_daily_trip_created tid did d _ _ _ live route Hc).
  destruct Hc as (Hr & Ht & Hp).
  erewrite delete_daily_trip_found.
  2:{ unfold first_by in *. cbn [with_trips daily_trips].
      rewrite find_snoc, Ht. cbn [display_name].
      now rewrite bool_decide_eq_true_2. }
  cbn [with_trips daily_trips deployments trip_id routes vehicles].
  rewrite remove_first_trip_snoc by (assumption || reflexivity).
  rewrite filter_out_snoc by (assumption || reflexivity).
  now destruct d.
Qed.

(** X9. Each of the four changing operations keeps every stored booking
    percentage within 0..100: creation refuses a percentage outside it,
    and the other three store no percentage. *)
Theorem operations_keep_percentages_in_range (str_float : Q -> string)
    (tid did : Z) (d : Database) (route_name name : string) (p : Q)
    (live : string) :
  percentages_in_range d ->
  percentages_in_range
    (snd (create_daily_trip tid did d route_name name p live))
  /\ percentages_in_range (snd (delete_daily_trip str_float d name))
  /\ percentages_in_range (snd (delete_vehicle_from_trip d name))
  /\ percentages_in_range (snd (deactivate_route d route_name)).
Proof.
  unfold percentages_in_range. intros Hr. repeat split.
  - destruct (create_daily_trip_database tid did d route_name name p live)
      as [-> | [route Hc]]; [exact Hr|].
    rewrite (create_daily_trip_created tid did d _ _ _ live route Hc).
    cbn [with_trips daily_trips]. apply Forall_app. split; [exact Hr|].
    constructor; [|constructor]. apply Hc.
  - unfold delete_daily_trip.
    destruct (first_by display_name name (daily_trips d)); [|exact Hr].
    cbn [snd with_trips daily_trips]. now apply remove_first_trip_sublist.
  - unfold delete_vehicle_from_trip.
    destruct (first_by display_name name (daily_trips d)); [|exact Hr].
    now destruct (assigned_vehicle _).
  - destruct (deactivate_route_database d route_name) as [-> | ->]; exact Hr.
Qed.

(** *** Unassigned vehicles *)

(** The vehicles that deployment rows carry, one entry per row *)
Definition carried (ds : list Deployment) : list Z :=
  List.flat_map
    (fun dp =>
       match assigned_vehicle (Some dp) with
       | Some v => [v]
       | None => []
       end)
    ds.

Lemma carried_clear_first_vehicle (tid v : Z) (ds : list Deployment) :
  assigned_vehicle (first_by dep_trip_id tid ds) = Some v ->
  exists before after,
    carried ds = before ++ v :: after
    /\ carried (clear_first_vehicle tid ds) = before ++ after.
Proof.
  unfold first_by.
  induction ds as [|dp ds IH]; simpl; [discriminate|].
  destruct (bool_decide (dep_trip_id dp = tid)) eqn:E; simpl.
  - intros Hv. exists [], (carried ds). unfold carried at 1. simpl.
    fold (carried ds). simpl in Hv. rewrite Hv. split; reflexivity.
  - intros Hv. destruct (IH Hv) as (before & after & H1 & H2).
    fold (carried ds). fold (carried (clear_first_vehicle tid ds)).
    rewrite H1, H2.
    destruct (dep_vehicle_id dp) as [x|];
      [destruct (bool_decide (x = 0%Z))|].
    + exists before, after. split; reflexivity.
    + exists (x :: before), after. split; reflexivity.
    + exists before, after. split; reflexivity.
Qed.

(** X10. When no vehicle is carried by two deployments, a successful
    removal of the vehicle of a trip makes that vehicle free: it is then
    among the unassigned vehicles, the vehicles that were unassigned before
    still are, and the answer of [query_unassigned_vehicles] is no longer
    that all vehicles are assigned. *)
Theorem removed_vehicle_becomes_unassigned (d : Database)
    (trip_name : string) (trip : DailyTrip) (v : Z) (vehicle : Vehicle) :
  first_by display_name trip_name (daily_trips d) = Some trip ->
  assigned_vehicle
    (first_by dep_trip_id (trip_id trip) (deployments d)) = Some v ->
  NoDup (assigned_ids d) ->
  In vehicle (vehicles d) ->
  (vehicle_id vehicle = v
   \/ In vehicle (unassigned_vehicles d)) ->
  In vehicle
    (unassigned_vehicles
       (snd (delete_vehicle_from_trip d trip_name)))
  /\ query_unassigned_vehicles
       (snd (delete_vehicle_from_trip d trip_name))
     <> "All vehicles are currently assigned.".
Proof.
  intros Ht Hv Hnd Hin Hcase.
  assert (Hfree : In vehicle
                    (unassigned_vehicles
                       (snd (delete_vehicle_from_trip d trip_name)))).
  2:{ split; [exact Hfree|].
      unfold query_unassigned_vehicles.
      destruct (unassigned_vehicles
                  (snd (delete_vehicle_from_trip d trip_name)))
        as [|x l]; [inversion Hfree|].
      simpl. discriminate. }
  unfold delete_vehicle_from_trip. rewrite Ht, Hv. cbn [snd].
  unfold unassigned_vehicles, assigned_ids in *.
  cbn [with_deployments deployments vehicles].
  fold (carried (deployments d)) in *.
  fold (carried (clear_first_vehicle (trip_id trip) (deployments d))).
  destruct (carried_clear_first_vehicle _ _ _ Hv)
    as (before & after & H1 & H2).
  rewrite H2. rewrite H1 in Hnd, Hcase.
  apply List.filter_In. split; [exact Hin|].
  apply negb_true_iff, bool_decide_eq_false_2.
  rewrite elem_of_app. intros Hmem.
  destruct Hcase as [Hid | Hun].
  - apply NoDup_app in Hnd as (_ & Hdisj & Hnd2).
    apply NoDup_cons in Hnd2 as [Hv2 _].
    destruct Hmem as [Hb | Ha].
    + apply (Hdisj v); [congruence|]. apply elem_of_cons. now left.
    + apply Hv2. congruence.
  - apply List.filter_In in Hun as [_ Hun].
    apply negb_true_iff, bool_decide_eq_false_1 in Hun.
    apply Hun. rewrite elem_of_app, elem_of_cons. tauto.
Qed.

End DataOperations.

(** * Further properties of the sessions *)

Section Sessions.

Variable USE_LLM_MODE : bool.
Variable llm : string -> list Message -> LlmOutcome.
Variable process_image_with_vision : string -> string -> string -> string.
Variable tool_body :
  string -> gmap string string -> Database -> Outcome * Database.
Variable str_float : Q -> string.
Variable format_trip_status : string -> string.
Variable str_lower : string -> string.
Variable str_strip : string -> string.

Local Abbreviation turn' :=
  (turn USE_LLM_MODE llm process_image_with_vision tool_body str_float
     format_trip_status str_lower str_strip).
Local Abbreviation chat_endpoint' :=
  (chat_endpoint USE_LLM_MODE llm process_image_with_vision tool_body
     str_float format_trip_status str_lower str_strip).

Implicit Types (store : gmap string Session) (sess : Session).

Lemma get_session_id_from_page_inj (page1 page2 : string) :
  get_session_id_from_page page1 = get_session_id_from_page page2 ->
  page1 = page2.
Proof. unfold get_session_id_from_page. simpl. now intros [=]. Qed.



(** X13. A request for one page leaves the sessions of all other pages to
    the sweep alone: after the request, the session of another page is
    there, unchanged, exactly when it was there and had not expired. *)
Theorem chat_endpoint_isolates_pages (t_sweep t_load t_save : Z)
    (message page other : string) (image : option string)
    (store : gmap string Session) (w : World) :
  other <> page ->
  snd (fst (chat_endpoint' t_sweep t_load t_save message page image store w))
  !! get_session_id_from_page other
  = match store !! get_session_id_from_page other with
    | Some sess => if is_expired t_sweep sess then None else Some sess
    | None => None
    end.
Proof.
  intros Hne.
  assert (Hsid : get_session_id_from_page page
                 <> get_session_id_from_page other).
  { intros H. apply get_session_id_from_page_inj in H. congruence. }
  assert (Hswept :
            cleanup_old_sessions t_sweep store !! get_session_id_from_page other
            = match store !! get_session_id_from_page other with
              | Some sess => if is_expired t_sweep sess then None else Some sess
              | None => None
              end).
  { destruct (store !! get_session_id_from_page other) as [sess|] eqn:E.
    - now apply lookup_cleanup.
    - now apply cleanup_keeps_absent. }
  rewrite <- Hswept. unfold chat_endpoint, get_or_create_session.
  destruct (cleanup_old_sessions t_sweep store !! get_session_id_from_page page);
    unfold bind, ret;
    destruct (turn' message page image _ w) as [r w']; cbn [fst snd];
    now rewrite !lookup_insert_ne by exact Hsid.
Qed.

End Sessions.

(** * Further properties of the texts *)

Section Texts.

Import PyStr.

Lemma list_ascii_of_string_app (a b : string) :
  list_ascii_of_string (a +:+ b)
  = list_ascii_of_string a ++ list_ascii_of_string b.
Proof. induction a as [|c a IH]; simpl; [reflexivity|now rewrite IH]. Qed.

Lemma string_of_list_ascii_app (l1 l2 : list ascii) :
  string_of_list_ascii (l1 ++ l2)
  = string_of_list_ascii l1 +:+ string_of_list_ascii l2.
Proof. induction l1 as [|c l1 IH]; simpl; [reflexivity|now rewrite IH]. Qed.

Lemma reverse_app (a b : string) :
  reverse (a +:+ b) = reverse b +:+ reverse a.
Proof.
  unfold reverse.
  now rewrite list_ascii_of_string_app, List.rev_app_distr,
    string_of_list_ascii_app.
Qed.

Lemma forallb_rev {A : Type} (f : A -> bool) (l : list A) :
  List.forallb f (List.rev l) = List.forallb f l.
Proof.
  induction l as [|x l IH]; simpl; [reflexivity|].
  rewrite List.forallb_app, IH. simpl. rewrite andb_true_r. apply andb_comm.
Qed.

Lemma existsb_rev {A : Type} (f : A -> bool) (l : list A) :
  List.existsb f (List.rev l) = List.existsb f l.
Proof.
  induction l as [|x l IH]; simpl; [reflexivity|].
  rewrite List.existsb_app, IH. simpl. rewrite orb_false_r. apply orb_comm.
Qed.

Lemma blank_cons (c : ascii) (s : string) :
  blank (String c s) = isspace c && blank s.
Proof. reflexivity. Qed.

Lemma blank_app (a b : string) : blank (a +:+ b) = blank a && blank b.
Proof.
  unfold blank. now rewrite list_ascii_of_string_app, List.forallb_app.
Qed.

Lemma blank_reverse (s : string) : blank (reverse s) = blank s.
Proof.
  unfold blank, reverse.
  now rewrite list_ascii_of_string_of_list_ascii, forallb_rev.
Qed.

Lemma lstrip_blank_app (ws s : string) :
  blank ws = true -> lstrip (ws +:+ s) = lstrip s.
Proof.
  induction ws as [|c ws IH]; simpl; [reflexivity|].
  rewrite blank_cons, andb_true_iff. intros [Hc Hws]. rewrite Hc. auto.
Qed.

Lemma lstrip_blank (s : string) : blank s = true -> lstrip s = "".
Proof.
  induction s as [|c s IH]; simpl; [reflexivity|].
  rewrite blank_cons, andb_true_iff. intros [Hc Hs]. rewrite Hc. auto.
Qed.

Lemma lstrip_app_blank (s ws : string) :
  blank s = false -> lstrip (s +:+ ws) = lstrip s +:+ ws.
Proof.
  induction s as [|c s IH]; simpl; [discriminate|].
  rewrite blank_cons. destruct (isspace c); simpl; [exact IH|reflexivity].
Qed.

Lemma rstrip_app_blank (s ws : string) :
  blank ws = true -> rstrip (s +:+ ws) = rstrip s.
Proof.
  intros H. unfold rstrip. rewrite reverse_app.
  now rewrite lstrip_blank_app by now rewrite blank_reverse.
Qed.

Lemma strip_padding (ws1 s ws2 : string) :
  blank ws1 = true -> blank ws2 = true ->
  strip (ws1 +:+ s +:+ ws2) = strip s.
Proof.
  intros H1 H2. unfold strip. rewrite lstrip_blank_app by exact H1.
  destruct (blank s) eqn:Hs.
  - rewrite (lstrip_blank s Hs).
    now rewrite lstrip_blank by now rewrite blank_app, Hs, H2.
  - rewrite lstrip_app_blank by exact Hs. now apply rstrip_app_blank.
Qed.

Lemma lower_app (a b : string) : lower (a +:+ b) = lower a +:+ lower b.
Proof. induction a as [|c a IH]; simpl; [reflexivity|now rewrite IH]. Qed.

Lemma lower_char_space (c : ascii) : isspace c = true -> lower_char c = c.
Proof.
  destruct c as [[] [] [] [] [] [] [] []]; vm_compute; congruence.
Qed.

Lemma lower_blank (ws : string) : blank ws = true -> lower ws = ws.
Proof.
  induction ws as [|c ws IH]; simpl; [reflexivity|].
  rewrite blank_cons, andb_true_iff. intros [Hc Hws].
  now rewrite lower_char_space, IH.
Qed.

Lemma lower_char_upper_char (c : ascii) :
  lower_char (upper_char c) = lower_char c.
Proof. destruct c as [[] [] [] [] [] [] [] []]; reflexivity. Qed.

Lemma lower_upper (s : string) : lower (upper s) = lower s.
Proof.
  induction s as [|c s IH]; simpl; [reflexivity|].
  now rewrite lower_char_upper_char, IH.
Qed.

(** X14. How a reply in ASCII is classified does not depend on the ASCII
    white space around it nor on the case of its letters: with any such
    white space before and after, and in capitals, it is normalised to the
    same text, hence falls into the same vocabulary. *)
Theorem normalise_ignores_padding_and_case (ws1 reply ws2 : string) :
  is_ascii reply = true ->
  blank ws1 = true ->
  blank ws2 = true ->
  normalise_ascii (ws1 +:+ reply +:+ ws2) = normalise_ascii reply
  /\ normalise_ascii (upper reply) = normalise_ascii reply
  /\ normalise_ascii (ws1 +:+ upper reply +:+ ws2) = normalise_ascii reply.
Proof.
  intros _ H1 H2. unfold normalise_ascii, normalise.
  assert (Hpad : forall r,
             strip (lower (ws1 +:+ r +:+ ws2)) = strip (lower r)).
  { intros r. rewrite !lower_app, (lower_blank ws1 H1), (lower_blank ws2 H2).
    now apply strip_padding. }
  repeat split.
  - apply Hpad.
  - now rewrite lower_upper.
  - now rewrite Hpad, lower_upper.
Qed.

(** *** The spoken form of an identifier *)

Lemma contains_cons (c a : ascii) (s : string) :
  contains c (String a s) = Ascii.eqb c a || contains c s.
Proof. reflexivity. Qed.

Lemma contains_app (c : ascii) (a b : string) :
  contains c (a +:+ b) = contains c a || contains c b.
Proof.
  unfold contains. now rewrite list_ascii_of_string_app, List.existsb_app.
Qed.

Lemma contains_reverse (c : ascii) (s : string) :
  contains c (reverse s) = contains c s.
Proof.
  unfold contains, reverse.
  now rewrite list_ascii_of_string_of_list_ascii, existsb_rev.
Qed.

Lemma contains_lstrip (c : ascii) (s : string) :
  contains c s = false -> contains c (lstrip s) = false.
Proof.
  induction s as [|a s IH]; simpl; [reflexivity|].
  destruct (isspace a); [|now intros H].
  rewrite contains_cons, orb_false_iff. intros [_ H]. auto.
Qed.

Lemma contains_strip (c : ascii) (s : string) :
  contains c s = false -> contains c (strip s) = false.
Proof.
  intros H. unfold strip, rstrip. rewrite contains_reverse.
  apply contains_lstrip. rewrite contains_reverse. now apply contains_lstrip.
Qed.

Lemma hyphen_upper_char (a : ascii) :
  Ascii.eqb "-" (upper_char a) = Ascii.eqb "-" a.
Proof. destruct a as [[] [] [] [] [] [] [] []]; reflexivity. Qed.

Lemma contains_hyphen_upper (s : string) :
  contains "-" (upper s) = contains "-" s.
Proof.
  induction s as [|a s IH]; simpl; [reflexivity|].
  now rewrite !contains_cons, hyphen_upper_char, IH.
Qed.

Lemma split_segments (sep : ascii) (s : string) :
  Forall (fun segment => contains sep segment = false) (split sep s).
Proof.
  induction s as [|a s IH]; simpl; [now repeat constructor|].
  destruct (Ascii.eqb a sep) eqn:E; [now constructor|].
  destruct (split sep s) as [|segment rest].
  - repeat constructor. rewrite contains_cons, Ascii.eqb_sym, E. reflexivity.
  - apply Forall_cons in IH as [Hs Hr]. constructor; [|exact Hr].
    now rewrite contains_cons, Ascii.eqb_sym, E.
Qed.

Lemma contains_join (c : ascii) (sep : string) (parts : list string) :
  contains c sep = false ->
  Forall (fun x => contains c x = false) parts ->
  contains c (join sep parts) = false.
Proof.
  intros Hsep. induction 1 as [|x rest Hx Hrest IH]; [reflexivity|].
  cbn [join]. destruct rest as [|y rest]; [exact Hx|].
  now rewrite !contains_app, Hx, Hsep, IH.
Qed.

Lemma contains_chars (c : ascii) (s : string) :
  contains c s = false ->
  Forall (fun x => contains c x = false) (chars s).
Proof.
  unfold chars. induction s as [|a s IH]; simpl; [constructor|].
  rewrite contains_cons, orb_false_iff. intros [Ha Hs].
  constructor; [|now apply IH].
  now rewrite contains_cons, Ha.
Qed.

(** X15. The spoken form of an ASCII identifier never contains a hyphen:
    every hyphen of the identifier is either dropped or said as "dash". *)
Theorem speakable_identifier_has_no_hyphen (identifier : string) :
  is_ascii identifier = true ->
  contains "-" (speakable_identifier identifier) = false.
Proof.
  intros _. unfold speakable_identifier. case_bool_decide; [reflexivity|].
  apply contains_join; [reflexivity|].
  pose proof (split_segments "-" identifier) as Hseg.
  induction Hseg as [|segment rest Hs Hrest IH]; simpl; [constructor|].
  apply Forall_app. split; [|exact IH].
  case_bool_decide; constructor; [|constructor].
  apply contains_join; [reflexivity|].
  apply contains_chars. rewrite contains_hyphen_upper.
  now apply contains_strip.
Qed.

(** *** The reply returned to the caller *)

(** The reply extraction of [chat_endpoint] passes over [m]: it is the
    user's, or it has no content. *)
Definition passed_over (m : Message) : Prop :=
  match m with
  | HumanMessage _ => True
  | _ => message_content m = ""
  end.

Lemma agent_response_skips (newer older : list Message) :
  Forall passed_over newer ->
  agent_response (newer ++ older) = agent_response older.
Proof.
  induction 1 as [|m newer Hm Hnewer IH]; [reflexivity|].
  destruct m; simpl in *; try exact IH;
    rewrite bool_decide_eq_true_2 by exact Hm; exact IH.
Qed.

(** X16. The reply of [chat_endpoint] is the content of the newest message
    of the transcript that is not the user's and is not empty; when there
    is no such message it is the fixed text "I processed your request.",
    and never a message of the user. *)
Theorem agent_response_is_newest_agent_text (older newer : list Message)
    (m : Message) :
  ~ passed_over m ->
  Forall passed_over newer ->
  agent_response (List.rev (older ++ m :: newer)) = message_content m
  /\ agent_response (List.rev newer) = "I processed your request.".
Proof.
  intros Hm Hnewer.
  assert (Hrev : Forall passed_over (List.rev newer)).
  { apply List.Forall_forall. intros x Hx. apply List.in_rev in Hx.
    rewrite List.Forall_forall in Hnewer. now apply Hnewer. }
  split.
  - rewrite List.rev_app_distr. simpl. rewrite <- List.app_assoc. simpl.
    rewrite agent_response_skips by exact Hrev.
    destruct m; simpl in *; [now exfalso|..];
      rewrite bool_decide_eq_false_2 by exact Hm; reflexivity.
  - rewrite <- (app_nil_r (List.rev newer)).
    now rewrite agent_response_skips.
Qed.

End Texts.

(** * Further properties of the warning *)

Section Warnings.

Variable USE_LLM_MODE : bool.
Variable llm : string -> list Message -> LlmOutcome.
Variable process_image_with_vision : string -> string -> string -> string.
Variable tool_body :
  string -> gmap string string -> Database -> Outcome * Database.
Variable str_float : Q -> string.
Variable format_trip_status : string -> string.
Variable str_lower : string -> string.
Variable str_strip : string -> string.

Local Abbreviation call_model' :=
  (call_model USE_LLM_MODE llm process_image_with_vision).
Local Abbreviation movi_agent' :=
  (movi_agent USE_LLM_MODE llm process_image_with_vision tool_body str_float
     format_trip_status str_lower str_strip).

(** The consequence details [info] are those of the call [tc] on the
    database [d]: its category, the subject it names and the figure stored
    for that subject. *)
Definition details_of (d : Database) (tc : ToolCall) (info : ConsequenceInfo)
    : Prop :=
  match info with
  | vehicle_removal n p =>
      tc_name tc = "remove_vehicle_from_trip"
      /\ n = named_trip tc /\ trip_booking_percentage d n = Some p
  | trip_deletion n p =>
      tc_name tc = "delete_daily_trip"
      /\ n = named_trip tc /\ trip_booking_percentage d n = Some p
  | route_deactivation n k =>
      tc_name tc = "deactivate_route"
      /\ n = named_route tc /\ route_trip_count d n = Some k
  end.

Definition subject (info : ConsequenceInfo) : string :=
  match info with
  | vehicle_removal n _ | trip_deletion n _ | route_deactivation n _ => n
  end.

Definition figure (info : ConsequenceInfo) : string :=
  match info with
  | vehicle_removal _ p | trip_deletion _ p => str_float p
  | route_deactivation _ k => PyStr.str_nat k
  end.

Definition warning_text (info : ConsequenceInfo) : string :=
  match info with
  | vehicle_removal n p => vehicle_removal_warning str_float n p
  | trip_deletion n p => trip_deletion_warning str_float n p
  | route_deactivation n k => route_deactivation_warning n k
  end.

Lemma has_bookings_percentage (d : Database) (n : string) :
  db_utils.has_bookings (db_utils.check_trip_has_bookings d n) = true ->
  trip_booking_percentage d n
  = Some (db_utils.percentage (db_utils.check_trip_has_bookings d n)).
Proof.
  unfold db_utils.check_trip_has_bookings, trip_booking_percentage.
  now destruct (db_utils.first_by display_name n (daily_trips d)).
Qed.

Lemma has_trips_count (d : Database) (n : string) :
  db_utils.has_trips (db_utils.check_route_has_active_trips d n) = true ->
  route_trip_count d n
  = Some (db_utils.count (db_utils.check_route_has_active_trips d n)).
Proof.
  unfold db_utils.check_route_has_active_trips, route_trip_count.
  now destruct (db_utils.first_by route_display_name n (routes d)).
Qed.

Lemma verdict_details (d : Database) (tc : ToolCall) (info : ConsequenceInfo)
    (warning : string) :
  verdict str_float d tc = Some (info, warning) ->
  details_of d tc info /\ warning = warning_text info.
Proof.
  unfold verdict. repeat case_bool_decide;
    try match goal with
        | |- context [db_utils.has_bookings ?x] =>
            destruct (db_utils.has_bookings x) eqn:E
        | |- context [db_utils.has_trips ?x] =>
            destruct (db_utils.has_trips x) eqn:E
        end;
    try discriminate; intros [= <- <-]; simpl;
    (split; [split; [assumption|split; [reflexivity|]]|reflexivity]).
  - now apply has_bookings_percentage.
  - now apply has_bookings_percentage.
  - now apply has_trips_count.
Qed.

Lemma warning_text_quotes (info : ConsequenceInfo) :
  exists before between after,
    warning_text info
    = before +:+ subject info +:+ between +:+ figure info +:+ after
      +:+ ask_to_proceed.
Proof.
  destruct info as [n p|n p|n k]; simpl;
    unfold vehicle_removal_warning, trip_deletion_warning,
      route_deactivation_warning.
  - exists ("⚠️ CONSEQUENCE WARNING" +:+ nl +:+ nl
            +:+ "I can remove the vehicle from '"),
      ("'. However, please be aware that:" +:+ nl +:+ nl
       +:+ "• This trip is currently "),
      ("% booked by employees" +:+ nl
       +:+ "• Removing the vehicle will cancel these bookings" +:+ nl
       +:+ "• Trip-sheet generation will fail" +:+ nl
       +:+ "• Affected employees will need to be notified" +:+ nl +:+ nl).
    reflexivity.
  - exists ("⚠️ CONSEQUENCE WARNING" +:+ nl +:+ nl
            +:+ "I can delete the trip '"),
      ("'. However, please be aware that:" +:+ nl +:+ nl
       +:+ "• This trip is currently "),
      ("% booked by employees" +:+ nl
       +:+ "• Deleting this trip will permanently remove all bookings" +:+ nl
       +:+ "• Assigned vehicle and driver will be freed up" +:+ nl
       +:+ "• Affected employees will need to be notified and rescheduled"
       +:+ nl
       +:+ "• This action cannot be undone" +:+ nl +:+ nl).
    reflexivity.
  - exists ("⚠️ CONSEQUENCE WARNING" +:+ nl +:+ nl
            +:+ "I can deactivate route '"),
      ("'. However, please be aware that:" +:+ nl +:+ nl
       +:+ "• This route currently has "),
      (" active trip(s)" +:+ nl
       +:+ "• Deactivating will affect these trips" +:+ nl
       +:+ "• New bookings will be disabled" +:+ nl
       +:+ "• Existing schedules may need adjustment" +:+ nl +:+ nl).
    reflexivity.
Qed.

Lemma warning_text_not_empty (info : ConsequenceInfo) :
  warning_text info <> "".
Proof.
  destruct info; simpl;
    unfold vehicle_removal_warning, trip_deletion_warning,
      route_deactivation_warning; simpl; discriminate.
Qed.

(** X17. When a turn pauses a call, the consequence details it records are
    those of that call: its category, the subject it names and the figure
    stored for the subject. The reply the caller gets is the warning, which
    quotes the subject and the figure and ends by asking whether to
    proceed; the notice that nothing was changed is in the transcript. *)
Theorem paused_turn_replies_with_warning (s : AgentState) (w : World)
    (c : string) (tc : ToolCall) (rest : list ToolCall) :
  start_router s = call_model_node ->
  proposes (call_model' s) c (tc :: rest) ->
  at_risk (db w) tc ->
  exists info before between after,
    consequence_info (fst (movi_agent' s w)) = Some info
    /\ details_of (db w) tc info
    /\ agent_response (List.rev (messages (fst (movi_agent' s w))))
       = before +:+ subject info +:+ between +:+ figure info +:+ after
         +:+ ask_to_proceed
    /\ In (ToolMessage
             "⏸️ Action paused pending confirmation. No changes made yet."
             (tc_id tc))
          (messages (fst (movi_agent' s w))).
Proof.
  intros Hstart Hp Hrisk.
  rewrite (movi_agent_model_route USE_LLM_MODE llm process_image_with_vision
             tool_body str_float format_trip_status str_lower str_strip
             s w c tc rest Hstart Hp).
  apply (verdict_at_risk str_float) in Hrisk as [[info warning] Hv].
  rewrite Hv. destruct (verdict_details _ _ _ _ Hv) as [Hd ->].
  destruct (warning_text_quotes info) as (before & between & after & Hq).
  exists info, before, between, after. cbn [fst].
  split; [reflexivity|]. split; [exact Hd|]. split.
  - cbn [pause_for_confirmation messages]. rewrite List.rev_app_distr.
    cbn [List.rev List.app agent_response message_content].
    rewrite bool_decide_eq_false_2 by apply warning_text_not_empty.
    exact Hq.
  - cbn [pause_for_confirmation messages]. apply List.in_or_app. right.
    now left.
Qed.

End Warnings.

(** * Further properties of whole dialogues *)

Section Dialogues.

Variable USE_LLM_MODE : bool.
Variable llm : string -> list Message -> LlmOutcome.
Variable process_image_with_vision : string -> string -> string -> string.
Variable tool_body :
  string -> gmap string string -> Database -> Outcome * Database.
Variable str_float : Q -> string.
Variable format_trip_status : string -> string.
Variable str_lower : string -> string.
Variable str_strip : string -> string.

Local Abbreviation call_model' :=
  (call_model USE_LLM_MODE llm process_image_with_vision).
Local Abbreviation movi_agent' :=
  (movi_agent USE_LLM_MODE llm process_image_with_vision tool_body str_float
     format_trip_status str_lower str_strip).
Local Abbreviation turn' :=
  (turn USE_LLM_MODE llm process_image_with_vision tool_body str_float
     format_trip_status str_lower str_strip).
Local Abbreviation invoke_agent' :=
  (invoke_agent USE_LLM_MODE llm process_image_with_vision tool_body str_float
     format_trip_status str_lower str_strip).

Lemma last_message_snoc (s : AgentState) (m : Message) :
  last_message s = Some m -> exists l, messages s = l ++ [m].
Proof.
  unfold last_message. destruct (messages s) as [|a l] using List.rev_ind.
  - discriminate.
  - rewrite List.map_app. simpl. rewrite List.last_last.
    intros [= ->]. eauto.
Qed.

(** X18. [invoke_agent] keeps nothing between calls: whatever the message,
    a "yes" included, it consults the model; when the model answers with a
    text and proposes no call, that text is the result and the data layer
    is not touched. *)
Theorem invoke_agent_is_stateless (message page : string)
    (image : option string) (w : World) (c : string) :
  proposes (call_model' (initial_state message page image)) c [] ->
  c <> "" ->
  invoke_agent' message page image w = (c, w).
Proof.
  intros Hp Hc. unfold invoke_agent, bind.
  rewrite (movi_agent_no_calls USE_LLM_MODE llm process_image_with_vision
             tool_body str_float format_trip_status str_lower str_strip
             (initial_state message page image) w c eq_refl Hp).
  destruct (last_message_snoc _ _ Hp) as [l ->].
  unfold ret. rewrite List.rev_app_distr. simpl.
  now rewrite bool_decide_eq_false_2.
Qed.

(** X19. The whole confirmation dialogue. A session with nothing pending
    receives a request for which the model proposes, first, a call that
    puts bookings or trips at risk: nothing is executed. When the next
    message of the user is an acceptance, the paused call, and nothing
    else, is invoked with its arguments; when it is a rejection, nothing
    is invoked and the database is as before the request. Either way
    nothing is pending afterwards. *)
Theorem confirmation_dialogue (request reply page : string)
    (image image' : option string) (s : AgentState) (w : World)
    (c : string) (tc : ToolCall) (rest : list ToolCall) :
  confirmation_pending s = false ->
  proposes (call_model' (receive request page image s)) c (tc :: rest) ->
  at_risk (db w) tc ->
  snd (turn' request page image s w)
  = {| db := db w; trace := trace w ++ lookups tc |}
  /\ (normalise str_lower str_strip reply ∈ acceptance_vocabulary ->
      snd (turn' reply page image' (fst (turn' request page image s w))
             (snd (turn' request page image s w)))
      = {| db := snd (tool_body (tc_name tc) (tc_args tc) (db w));
           trace := (trace w ++ lookups tc)
                    ++ [Invoke (tc_name tc) (tc_args tc)] |})
  /\ (normalise str_lower str_strip reply ∈ rejection_vocabulary ->
      snd (turn' reply page image' (fst (turn' request page image s w))
             (snd (turn' request page image s w)))
      = {| db := db w; trace := trace w ++ lookups tc |})
  /\ (normalise str_lower str_strip reply ∈ acceptance_vocabulary
      \/ normalise str_lower str_strip reply ∈ rejection_vocabulary ->
      confirmation_pending
        (fst (turn' reply page image' (fst (turn' request page image s w))
                (snd (turn' request page image s w)))) = false
      /\ action_to_confirm
           (fst (turn' reply page image' (fst (turn' request page image s w))
                   (snd (turn' request page image s w)))) = None).
Proof.
  intros Hpend Hp Hrisk.
  pose proof (at_risk_guarded _ _ Hrisk) as Hg.
  apply guarded_is_registered in Hg.
  apply (verdict_at_risk str_float) in Hrisk as [[info warning] Hv].
  assert (Hfirst :
            turn' request page image s w
            = (pause_for_confirmation tc info warning
                 (call_model' (receive request page image s)),
               {| db := db w; trace := trace w ++ lookups tc |})).
  { unfold turn.
    rewrite (movi_agent_model_route USE_LLM_MODE llm process_image_with_vision
               tool_body str_float format_trip_status str_lower str_strip
               _ w c tc rest
               (start_router_not_pending request page image s Hpend) Hp).
    now rewrite Hv. }
  rewrite !Hfirst. cbn [fst snd].
  assert (Hrun : forall w1,
             turn' reply page image'
               (pause_for_confirmation tc info warning
                  (call_model' (receive request page image s))) w1
             = handle_confirmation tool_body str_lower str_strip
                 (receive reply page image'
                    (pause_for_confirmation tc info warning
                       (call_model' (receive request page image s)))) w1).
  { intros w1. now apply turn_pending. }
  rewrite Hrun. unfold handle_confirmation.
  rewrite last_message_receive.
  cbn [receive pause_for_confirmation action_to_confirm].
  split; [reflexivity|].
  split; [|split].
  - intros Hyes. rewrite bool_decide_eq_true_2 by exact Hyes.
    unfold bind. rewrite execute_confirmed_registered by exact Hg.
    reflexivity.
  - intros Hno.
    rewrite bool_decide_eq_false_2 by now apply rejection_not_acceptance.
    rewrite bool_decide_eq_true_2 by exact Hno. reflexivity.
  - intros [Hyes|Hno].
    + rewrite bool_decide_eq_true_2 by exact Hyes. unfold bind.
      destruct (execute_confirmed tool_body tc _). split; reflexivity.
    + rewrite bool_decide_eq_false_2 by now apply rejection_not_acceptance.
      rewrite bool_decide_eq_true_2 by exact Hno. split; reflexivity.
Qed.

End Dialogues.

(** * Further properties of trimming *)

Section Trimming.

Variable format_trip_status : string -> string.

Import PyStr.

Lemma lstrip_idempotent (s : string) : lstrip (lstrip s) = lstrip s.
Proof.
  induction s as [|c s IH]; simpl; [reflexivity|].
  destruct (isspace c) eqn:E; [exact IH|]. simpl. now rewrite E.
Qed.

Lemma reverse_cons (c : ascii) (s : string) :
  reverse (String c s) = reverse s +:+ String c "".
Proof. unfold reverse. simpl. now rewrite string_of_list_ascii_app. Qed.

Lemma reverse_involutive (s : string) : reverse (reverse s) = s.
Proof.
  unfold reverse.
  now rewrite list_ascii_of_string_of_list_ascii, List.rev_involutive,
    string_of_list_ascii_of_string.
Qed.

Lemma rstrip_idempotent (s : string) : rstrip (rstrip s) = rstrip s.
Proof.
  unfold rstrip. now rewrite reverse_involutive, lstrip_idempotent.
Qed.

Lemma lstrip_snoc_nonspace (a : string) (c : ascii) :
  isspace c = false ->
  exists u, lstrip (a +:+ String c "") = u +:+ String c "".
Proof.
  intros Hc. induction a as [|x a IH]; simpl.
  - rewrite Hc. now exists "".
  - destruct (isspace x); [exact IH|]. now exists (String x a).
Qed.

Lemma rstrip_keeps_head (c : ascii) (t : string) :
  isspace c = false -> exists r, rstrip (String c t) = String c r.
Proof.
  intros Hc. unfold rstrip. rewrite reverse_cons.
  destruct (lstrip_snoc_nonspace (reverse t) c Hc) as [u ->].
  rewrite reverse_app. now exists (reverse u).
Qed.

Lemma lstrip_cases (s : string) :
  lstrip s = ""
  \/ exists c t, lstrip s = String c t /\ isspace c = false.
Proof.
  induction s as [|c s IH]; simpl; [now left|].
  destruct (isspace c) eqn:E; [exact IH|]. right. eauto.
Qed.

Lemma strip_idempotent (s : string) : strip (strip s) = strip s.
Proof.
  unfold strip.
  assert (H : lstrip (rstrip (lstrip s)) = rstrip (lstrip s)).
  { destruct (lstrip_cases s) as [-> | (c & t & -> & Hc)]; [reflexivity|].
    destruct (rstrip_keeps_head c t Hc) as [r ->]. simpl. now rewrite Hc. }
  rewrite H. apply rstrip_idempotent.
Qed.

Lemma isspace_lower_char (c : ascii) : isspace (lower_char c) = isspace c.
Proof. destruct c as [[] [] [] [] [] [] [] []]; reflexivity. Qed.

Lemma lower_char_idempotent (c : ascii) :
  lower_char (lower_char c) = lower_char c.
Proof. destruct c as [[] [] [] [] [] [] [] []]; reflexivity. Qed.

Lemma lower_idempotent (s : string) : lower (lower s) = lower s.
Proof.
  induction s as [|c s IH]; simpl; [reflexivity|].
  now rewrite lower_char_idempotent, IH.
Qed.

Lemma lower_lstrip (s : string) : lower (lstrip s) = lstrip (lower s).
Proof.
  induction s as [|c s IH]; simpl; [reflexivity|].
  rewrite isspace_lower_char. now destruct (isspace c).
Qed.

Lemma lower_reverse (s : string) : lower (reverse s) = reverse (lower s).
Proof.
  induction s as [|c s IH]; [reflexivity|].
  simpl lower at 2. now rewrite !reverse_cons, lower_app, IH.
Qed.

Lemma lower_strip (s : string) : lower (strip s) = strip (lower s).
Proof.
  unfold strip, rstrip.
  now rewrite lower_reverse, lower_lstrip, lower_reverse, lower_lstrip.
Qed.

(** X20. On ASCII text trimming is done once and for all: a text that was
    stripped has no white space left at either end, so stripping it again,
    normalising a normalised reply again, or formatting again the formatted
    output of a tool other than [get_trip_status], changes nothing; for
    such a tool the formatted output is the raw output stripped. *)
Theorem trimmed_text_is_stable (s raw tool_name : string) :
  is_ascii s = true ->
  is_ascii raw = true ->
  tool_name <> "get_trip_status" ->
  strip (strip s) = strip s
  /\ normalise_ascii (normalise_ascii s) = normalise_ascii s
  /\ format_tool_output_ascii format_trip_status tool_name raw = strip raw
  /\ format_tool_output_ascii format_trip_status tool_name
       (format_tool_output_ascii format_trip_status tool_name raw)
     = format_tool_output_ascii format_trip_status tool_name raw.
Proof.
  intros _ _ Hname.
  assert (Hfmt : forall x,
             format_tool_output_ascii format_trip_status tool_name x
             = strip x).
  { intros x. unfold format_tool_output_ascii, format_tool_output.
    rewrite (bool_decide_eq_false_2 (tool_name = "get_trip_status"))
      by exact Hname.
    now destruct (startswith "error" (lower (strip x))). }
  repeat split.
  - apply strip_idempotent.
  - unfold normalise_ascii, normalise.
    now rewrite lower_strip, lower_idempotent, strip_idempotent.
  - apply Hfmt.
  - rewrite !Hfmt. apply strip_idempotent.
Qed.

End Trimming.

(** * Further properties of the sweep *)

Section Sweep.

Implicit Types (store : gmap string Session) (sess : Session).

Lemma lookup_cleanup_any (now : Z) store (sid : string) :
  cleanup_old_sessions now store !! sid
  = match store !! sid with
    | Some sess => if is_expired now sess then None else Some sess
    | None => None
    end.
Proof.
  destruct (store !! sid) as [sess|] eqn:E.
  - now apply lookup_cleanup.
  - now apply cleanup_keeps_absent.
Qed.

(** X21. Sweeping twice at the same time is sweeping once, and two sweeps
    at different times can be made in either order: what is left are the
    sessions that neither sweep finds expired. *)
Theorem cleanup_old_sessions_idempotent (now now' : Z)
    (store : gmap string Session) :
  cleanup_old_sessions now (cleanup_old_sessions now store)
  = cleanup_old_sessions now store
  /\ cleanup_old_sessions now (cleanup_old_sessions now' store)
     = cleanup_old_sessions now' (cleanup_old_sessions now store).
Proof.
  split; apply map_eq; intros sid; rewrite !lookup_cleanup_any;
    destruct (store !! sid) as [sess|]; try reflexivity.
  - destruct (is_expired now sess) eqn:E; [reflexivity|]. now rewrite E.
  - destruct (is_expired now sess) eqn:E1;
      destruct (is_expired now' sess) eqn:E2;
      rewrite ?E1, ?E2; reflexivity.
Qed.

End Sweep.

(** * Further sample runs *)

Section FurtherSampleRuns.

Local Abbreviation agent_at thm :=
  (thm true Sample.llm Sample.process_image_with_vision Sample.tool_body
     Sample.str_float Sample.format_trip_status PyStr.lower PyStr.strip).

(** A model that cannot be reached. *)
Definition unreachable_llm (page : string) (transcript : list Message)
    : LlmOutcome := LlmError.

Definition bulk_trip : DailyTrip :=
  Sample.trip 1 1 "Bulk - 00:01" 25 "00:01 IN".

Definition path1_route : Route :=
  Sample.route 1 "Path-1 - 07:00" "07:00" "active".

Lemma sample_at_risk : at_risk Sample.database Sample.remove_booked.
Proof.
  apply risk_vehicle_removal with 25%Q; [reflexivity|reflexivity|].
  reflexivity.
Qed.

Lemma sample_creatable :
  creatable Sample.database "Path-1 - 07:00" "Path-1 Late - 21:00" 50
    path1_route.
Proof.
  split; [reflexivity|]. split; [reflexivity|].
  split; unfold Qle; simpl; lia.
Qed.

Lemma model_failure_ends_turn_with_fallback_witness :
  start_router (Sample.asked "hello") = call_model_node
  /\ movi_agent true unreachable_llm Sample.process_image_with_vision
       Sample.tool_body Sample.str_float Sample.format_trip_status
       PyStr.lower PyStr.strip (Sample.asked "hello") Sample.world
     = (call_model true unreachable_llm Sample.process_image_with_vision
          (Sample.asked "hello"),
        Sample.world).
Proof.
  split; [reflexivity|].
  apply (model_failure_ends_turn_with_fallback true unreachable_llm
           Sample.process_image_with_vision Sample.tool_body Sample.str_float
           Sample.format_trip_status PyStr.lower PyStr.strip
           (Sample.asked "hello") Sample.world
           eq_refl (or_intror (fun _ _ => eq_refl))).
Defined.

Lemma delete_vehicle_from_trip_idempotent_witness :
  db_utils.first_by display_name "Bulk - 00:01" (daily_trips Sample.database)
  = Some bulk_trip
  /\ db_utils.delete_vehicle_from_trip
       (snd (db_utils.delete_vehicle_from_trip Sample.database "Bulk - 00:01"))
       "Bulk - 00:01"
     = ("No vehicle assigned to trip 'Bulk - 00:01'.",
        snd (db_utils.delete_vehicle_from_trip Sample.database "Bulk - 00:01")).
Proof.
  split; [reflexivity|].
  apply (delete_vehicle_from_trip_idempotent Sample.database "Bulk - 00:01"
           bulk_trip eq_refl).
Defined.

Lemma create_daily_trip_then_lookup_witness :
  creatable Sample.database "Path-1 - 07:00" "Path-1 Late - 21:00" 50
    path1_route
  /\ db_utils.check_trip_has_bookings
       (snd (db_utils.create_daily_trip 9 9 Sample.database "Path-1 - 07:00"
               "Path-1 Late - 21:00" 50 "NOT STARTED"))
       "Path-1 Late - 21:00"
     = {| db_utils.has_bookings := db_utils.positive 50;
          db_utils.percentage := 50 |}.
Proof.
  split; [exact sample_creatable|].
  apply (create_daily_trip_then_lookup 9 9 Sample.database "Path-1 - 07:00"
           "Path-1 Late - 21:00" 50 "NOT STARTED" path1_route
           sample_creatable).
Defined.

Lemma sample_names_distinct :
  NoDup (List.map display_name (daily_trips Sample.database)).
Proof. apply (bool_decide_unpack _). vm_compute. exact I. Qed.

Lemma delete_daily_trip_removes_trip_witness :
  db_utils.first_by display_name "Bulk - 00:01" (daily_trips Sample.database)
  = Some bulk_trip
  /\ NoDup (List.map display_name (daily_trips Sample.database))
  /\ db_utils.check_trip_has_bookings
       (snd (db_utils.delete_daily_trip Sample.str_float Sample.database
               "Bulk - 00:01"))
       "Bulk - 00:01"
     = {| db_utils.has_bookings := false; db_utils.percentage := 0 |}.
Proof.
  split; [reflexivity|]. split; [exact sample_names_distinct|].
  apply (delete_daily_trip_removes_trip Sample.str_float Sample.database
           "Bulk - 00:01" bulk_trip eq_refl sample_names_distinct).
Defined.

Lemma sample_key_unused :
  Forall (fun dp => dep_trip_id dp <> 9%Z) (deployments Sample.database).
Proof. repeat constructor; discriminate. Qed.

Lemma create_then_delete_daily_trip_witness :
  creatable Sample.database "Path-1 - 07:00" "Path-1 Late - 21:00" 50
    path1_route
  /\ Forall (fun dp => dep_trip_id dp <> 9%Z) (deployments Sample.database)
  /\ snd (db_utils.delete_daily_trip Sample.str_float
            (snd (db_utils.create_daily_trip 9 9 Sample.database
                    "Path-1 - 07:00" "Path-1 Late - 21:00" 50 "NOT STARTED"))
            "Path-1 Late - 21:00")
     = Sample.database.
Proof.
  split; [exact sample_creatable|]. split; [exact sample_key_unused|].
  exact (create_then_delete_daily_trip Sample.str_float 9 9 Sample.database
           "Path-1 - 07:00" "Path-1 Late - 21:00" 50 "NOT STARTED"
           path1_route sample_creatable sample_key_unused).
Defined.

Lemma operations_keep_percentages_in_range_witness :
  percentages_in_range Sample.database
  /\ percentages_in_range
       (snd (db_utils.create_daily_trip 9 9 Sample.database "Path-1 - 07:00"
               "Path-1 Late - 21:00" 50 "NOT STARTED")).
Proof.
  split; [exact sample_percentages_in_range|].
  apply (operations_keep_percentages_in_range Sample.str_float 9 9
           Sample.database "Path-1 - 07:00" "Path-1 Late - 21:00" 50
           "NOT STARTED" sample_percentages_in_range).
Defined.

Definition live_session : Session :=
  {| state := Sample.paused; last_access := Some 5400000000%Z |}.



Lemma chat_endpoint_isolates_pages_witness :
  "busDashboard" <> "manageRoute"
  /\ snd (fst (agent_at chat_endpoint 6000000000 6000000001 6000000002
                 "hello" "manageRoute" None sample_store Sample.world))
     !! get_session_id_from_page "busDashboard"
     = Some live_session.
Proof.
  split; [discriminate|].
  rewrite (agent_at chat_endpoint_isolates_pages 6000000000 6000000001
             6000000002 "hello" "manageRoute" "busDashboard" None sample_store
             Sample.world ltac:(discriminate)).
  reflexivity.
Defined.

Lemma normalise_ignores_padding_and_case_witness :
  PyStr.is_ascii "yes" = true
  /\ PyStr.blank ("  " +:+ nl) = true
  /\ PyStr.blank " " = true
  /\ normalise_ascii (("  " +:+ nl) +:+ PyStr.upper "yes" +:+ " ") = "yes".
Proof.
  split; [reflexivity|]. split; [reflexivity|]. split; [reflexivity|].
  rewrite (proj2 (proj2 (normalise_ignores_padding_and_case ("  " +:+ nl)
                           "yes" " " eq_refl eq_refl eq_refl))).
  reflexivity.
Defined.

(** A licence plate of the sample data. *)
Lemma speakable_identifier_has_no_hyphen_witness :
  PyStr.is_ascii "KA-01-AB-1234" = true
  /\ speakable_identifier "KA-01-AB-1234" = "K A dash 0 1 dash A B dash 1 2 3 4"
  /\ PyStr.contains "-" (speakable_identifier "KA-01-AB-1234") = false.
Proof.
  split; [reflexivity|]. split; [reflexivity|].
  apply (speakable_identifier_has_no_hyphen "KA-01-AB-1234" eq_refl).
Defined.

Lemma agent_response_is_newest_agent_text_witness :
  ~ passed_over (AIMessage "Done." [])
  /\ Forall passed_over [ToolMessage "" "call_1"; HumanMessage "thanks"]
  /\ agent_response
       (List.rev
          ([HumanMessage "hello"]
           ++ AIMessage "Done." []
              :: [ToolMessage "" "call_1"; HumanMessage "thanks"]))
     = "Done.".
Proof.
  assert (H1 : ~ passed_over (AIMessage "Done." [])) by (simpl; discriminate).
  assert (H2 : Forall passed_over
                 [ToolMessage "" "call_1"; HumanMessage "thanks"])
    by (repeat constructor).
  split; [exact H1|]. split; [exact H2|].
  apply (agent_response_is_newest_agent_text [HumanMessage "hello"] _ _ H1 H2).
Defined.

Lemma paused_turn_replies_with_warning_witness :
  at_risk Sample.database Sample.remove_booked
  /\ exists info,
       consequence_info
         (fst (Sample.agent
                 (Sample.asked "Remove the vehicle from Bulk - 00:01")
                 Sample.world)) = Some info
       /\ details_of Sample.database Sample.remove_booked info.
Proof.
  split; [exact sample_at_risk|].
  destruct (agent_at paused_turn_replies_with_warning
              (Sample.asked "Remove the vehicle from Bulk - 00:01")
              Sample.world "" Sample.remove_booked [] eq_refl eq_refl
              sample_at_risk)
    as (info & before & between & after & Hinfo & Hdetails & _).
  exists info. split; [exact Hinfo|exact Hdetails].
Defined.

Lemma invoke_agent_is_stateless_witness :
  proposes (Sample.model (initial_state "yes" "busDashboard" None))
    "How can I help you?" []
  /\ agent_at invoke_agent "yes" "busDashboard" None Sample.world
     = ("How can I help you?", Sample.world).
Proof.
  split; [reflexivity|].
  apply (agent_at invoke_agent_is_stateless "yes" "busDashboard" None
           Sample.world "How can I help you?" eq_refl).
  discriminate.
Defined.

Lemma confirmation_dialogue_witness :
  confirmation_pending Sample.fresh = false
  /\ at_risk Sample.database Sample.remove_booked
  /\ snd (Sample.turn "Remove the vehicle from Bulk - 00:01" Sample.fresh
            Sample.world)
     = {| db := Sample.database;
          trace := [Query "check_trip_has_bookings" "Bulk - 00:01"] |}.
Proof.
  split; [reflexivity|]. split; [exact sample_at_risk|].
  exact (proj1 (agent_at confirmation_dialogue
                  "Remove the vehicle from Bulk - 00:01" "yes" "busDashboard"
                  None None Sample.fresh Sample.world "" Sample.remove_booked
                  [] eq_refl eq_refl sample_at_risk)).
Defined.

Lemma trimmed_text_is_stable_witness :
  PyStr.is_ascii "" = true
  /\ PyStr.is_ascii (" done " +:+ nl) = true
  /\ "deactivate_route" <> "get_trip_status"
  /\ format_tool_output_ascii Sample.format_trip_status "deactivate_route"
       (" done " +:+ nl)
     = "done".
Proof.
  split; [reflexivity|]. split; [reflexivity|]. split; [discriminate|].
  rewrite (proj1 (proj2 (proj2
             (trimmed_text_is_stable Sample.format_trip_status ""
                (" done " +:+ nl) "deactivate_route" eq_refl eq_refl
                ltac:(discriminate))))).
  reflexivity.
Defined.

Lemma removed_vehicle_becomes_unassigned_witness :
  NoDup (db_utils.assigned_ids Sample.database)
  /\ In {| vehicle_id := 1; license_plate := "KA-01-AB-1234";
           vehicle_type := "Bus"; capacity := 40 |}
       (db_utils.unassigned_vehicles
          (snd (db_utils.delete_vehicle_from_trip Sample.database
                  "Bulk - 00:01"))).
Proof.
  assert (Hnd : NoDup (db_utils.assigned_ids Sample.database))
    by (apply (bool_decide_unpack _); vm_compute; exact I).
  split; [exact Hnd|].
  apply (removed_vehicle_becomes_unassigned Sample.database "Bulk - 00:01"
           bulk_trip 1
           {| vehicle_id := 1; license_plate := "KA-01-AB-1234";
              vehicle_type := "Bus"; capacity := 40 |}
           eq_refl eq_refl Hnd (or_introl eq_refl) (or_introl eq_refl)).
Defined.

End FurtherSampleRuns.
